(** * The network target of [src/config/have_sys_socket.c]

    A shallow embedding of the socket-backed network target: the eight
    open/reopen entry points, the TCP and UDP send routines, [init],
    [close] and [is_open], run against a small model of the calls the file
    makes into the operating system ([recv], [send], [close]) and into the
    rest of the library (the connect wrapper, the mutex wrappers and the
    error reporting functions). *)

From Stdlib Require Import ZArith Lia Strings.Byte.
From stdpp Require Import base option list gmap strings.

Local Open Scope Z_scope.

(** ** Data model *)

(** A [struct network_target *]: an address in the memory of targets. *)
Definition target_ptr := positive.

(** The life of a mutex as the wrappers of [thread_safety.h] drive it. *)
Inductive mutex_state :=
| MutexUninit
| MutexUnlocked
| MutexLocked
| MutexDestroyed.

(** Modelled from the spec: [struct network_target] is declared in
    [private/target/network.h], which is not part of the sources at hand.
    The fields are the ones the functions use; their types follow the data
    model of the specification (a destination string, a numeric port, an
    OS handle with a distinguished closed value, a mutex). *)
Record network_target := {
  destination : string;
  port : Z;
  handle : Z;
  mutex : mutex_state
}.

Definition with_handle (h : Z) (t : network_target) : network_target :=
  {| destination := destination t; port := port t;
     handle := h; mutex := mutex t |}.

Definition with_mutex (mu : mutex_state) (t : network_target) : network_target :=
  {| destination := destination t; port := port t;
     handle := handle t; mutex := mu |}.

(** What the kernel does with the next [send] on a socket, when the call
    comes back: it takes at most [n] bytes (at least one), or the call fails
    with an error code. A call that never comes back, because it waits for
    buffer space for ever or because a signal such as SIGPIPE ends the
    process where the flags do not forbid it, has no outcome here: what is
    proved about a send is about the runs in which every [send] returns. *)
Inductive send_outcome :=
| Accept (n : positive)
| SendFails (code : Z).

(** A connected socket as the process sees it. [inbound] holds the bytes
    the peer has sent and that no [recv] has taken yet, [fin] tells that the
    peer has shut its side down, [delivered] is the byte stream handed to
    the kernel so far, which is what the peer reads, in order, and
    [send_plan] fixes how the coming [send] calls behave. *)
Record socket := {
  sock_domain : Z;
  sock_type : Z;
  sock_host : string;
  sock_port : Z;
  inbound : list byte;
  fin : bool;
  delivered : list byte;
  send_plan : list send_outcome
}.

Definition with_inbound (l : list byte) (s : socket) : socket :=
  {| sock_domain := sock_domain s; sock_type := sock_type s;
     sock_host := sock_host s; sock_port := sock_port s;
     inbound := l; fin := fin s;
     delivered := delivered s; send_plan := send_plan s |}.

Definition with_sent (bytes : list byte) (plan : list send_outcome)
    (s : socket) : socket :=
  {| sock_domain := sock_domain s; sock_type := sock_type s;
     sock_host := sock_host s; sock_port := sock_port s;
     inbound := inbound s; fin := fin s;
     delivered := delivered s ++ bytes; send_plan := plan |}.

Definition with_endpoint (domain type : Z) (host : string) (prt : Z)
    (s : socket) : socket :=
  {| sock_domain := domain; sock_type := type;
     sock_host := host; sock_port := prt;
     inbound := inbound s; fin := fin s;
     delivered := delivered s; send_plan := send_plan s |}.

(** What the next connection attempt meets: a refusal with an error code,
    or a peer, reached through descriptor [fd]. *)
Inductive connect_outcome :=
| Refused (code : Z)
| Connected (fd : Z) (s : socket).

(** The calls that leave the process, in the order they are made. *)
Inductive event :=
| EvConnect (host : string) (prt domain type protocol result : Z)
| EvClose (fd : Z)
| EvRecv (fd len flags result : Z)
| EvSend (fd len flags result : Z).

(** The localised strings the file hands to the error functions. *)
Inductive l10n :=
| L10N_NETWORK_CLOSED_ERROR_MESSAGE
| L10N_SEND_SYS_SOCKET_FAILED_ERROR_MESSAGE
| L10N_ERRNO_ERROR_CODE_TYPE.

(** What reaches the error-reporting collaborator. *)
Inductive error_report :=
| network_closed (message : l10n)
| socket_send_failure (message : l10n) (code : Z) (code_type : l10n).

(** The whole machine: the memory holding the targets, the descriptor table
    of the process, [errno], the fate of the coming connection attempts, and
    the two logs. *)
Record machine := {
  targets : gmap target_ptr network_target;
  fds : gmap Z socket;
  errno : Z;
  connect_plan : list connect_outcome;
  trace : list event;
  errors : list error_report
}.

Definition set_targets (f : gmap target_ptr network_target ->
                            gmap target_ptr network_target)
    (m : machine) : machine :=
  {| targets := f (targets m); fds := fds m; errno := errno m;
     connect_plan := connect_plan m; trace := trace m; errors := errors m |}.

Definition set_fds (f : gmap Z socket -> gmap Z socket) (m : machine) : machine :=
  {| targets := targets m; fds := f (fds m); errno := errno m;
     connect_plan := connect_plan m; trace := trace m; errors := errors m |}.

Definition set_errno (e : Z) (m : machine) : machine :=
  {| targets := targets m; fds := fds m; errno := e;
     connect_plan := connect_plan m; trace := trace m; errors := errors m |}.

Definition set_connect_plan (l : list connect_outcome) (m : machine) : machine :=
  {| targets := targets m; fds := fds m; errno := errno m;
     connect_plan := l; trace := trace m; errors := errors m |}.

Definition log (e : event) (m : machine) : machine :=
  {| targets := targets m; fds := fds m; errno := errno m;
     connect_plan := connect_plan m; trace := trace m ++ [e];
     errors := errors m |}.

Definition report (r : error_report) (m : machine) : machine :=
  {| targets := targets m; fds := fds m; errno := errno m;
     connect_plan := connect_plan m; trace := trace m;
     errors := errors m ++ [r] |}.

(** How one pass through the body of a loop ends. *)
Inductive loop_control :=
| Break (result : Z)
| Continue (sent_bytes : Z).

(** ** Computations *)

(** A call runs on a machine and either returns a value and the machine it
    leaves, or does not return: it dereferences a pointer that holds no
    target, waits for a mutex nobody will release, or blocks in the kernel. *)
Definition M (A : Type) : Type := machine -> option (A * machine).

Definition ret {A} (a : A) : M A := fun m => Some (a, m).

Definition bind {A B} (c : M A) (k : A -> M B) : M B :=
  fun m => match c m with
           | Some (a, m') => k a m'
           | None => None
           end.

Definition stuck {A} : M A := fun _ => None.

Notation "'let!' x ':=' c 'in' k" := (bind c (fun x => k))
  (at level 10, x name, c at level 100, k at level 200,
   format "'[v' 'let!'  x  ':='  c  'in' '/' k ']'").

(** ** Platform constants and the C integer types *)

(** Values of <sys/socket.h> and <errno.h> on Linux. *)
Definition AF_INET : Z := 2.
Definition AF_INET6 : Z := 10.
Definition SOCK_STREAM : Z := 1.
Definition SOCK_DGRAM : Z := 2.
Definition MSG_PEEK : Z := 2.
Definition MSG_DONTWAIT : Z := 64.
Definition EBADF : Z := 9.
Definition EAGAIN : Z := 11.
Definition EMFILE : Z := 24.
Definition EPIPE : Z := 32.
Definition ECONNREFUSED : Z := 111.

(** [size_t] is 64 bits wide; its arithmetic wraps. *)
Definition SIZE_MAX : Z := 2 ^ 64 - 1.
Definition size_t (z : Z) : Z := z mod (SIZE_MAX + 1).

Definition has_flag (flag flags : Z) : bool := negb (Z.land flags flag =? 0).

(** The null pointer or a pointer to a target. *)
Definition NULL : option target_ptr := None.

(** ** Memory: the fields of a target *)

Definition load (p : target_ptr) : M network_target :=
  fun m => match targets m !! p with
           | Some t => Some (t, m)
           | None => None
           end.

Definition store (p : target_ptr) (t : network_target) : M unit :=
  fun m => match targets m !! p with
           | Some _ => Some (tt, set_targets (insert p t) m)
           | None => None
           end.

(** [target->handle], [target->destination] and [target->port] read. *)
Definition get_handle (p : target_ptr) : M Z :=
  let! t := load p in ret (handle t).

Definition get_destination (p : target_ptr) : M string :=
  let! t := load p in ret (destination t).

Definition get_port (p : target_ptr) : M Z :=
  let! t := load p in ret (port t).

(** [target->handle = h]. *)
Definition set_handle (p : target_ptr) (h : Z) : M unit :=
  let! t := load p in store p (with_handle h t).

Definition get_errno : M Z := fun m => Some (errno m, m).

(** ** The mutex wrappers

    The wrappers come from [private/config/wrapper/thread_safety.h] and
    [private/target/network.h], which are not part of the sources at hand.
    One thread runs here, so taking a mutex that is not free never
    returns. *)

(** Modelled from the spec: [config_init_mutex], the "init" of the mutex
    construct the specification lists among the inbound interfaces. *)
Definition config_init_mutex (p : target_ptr) : M unit :=
  let! t := load p in store p (with_mutex MutexUnlocked t).

(** Modelled from the spec: [config_destroy_mutex], the "destroy" of the
    mutex construct; it releases the resource of a mutex that is free. *)
Definition config_destroy_mutex (p : target_ptr) : M unit :=
  let! t := load p in
  match mutex t with
  | MutexUnlocked => store p (with_mutex MutexDestroyed t)
  | _ => stuck
  end.

(** Modelled from the spec: [lock_network_target], the "lock" of the mutex
    construct, applied to the mutex of the target. *)
Definition lock_network_target (p : target_ptr) : M unit :=
  let! t := load p in
  match mutex t with
  | MutexUnlocked => store p (with_mutex MutexLocked t)
  | _ => stuck
  end.

(** Modelled from the spec: [unlock_network_target], the "unlock" of the
    mutex construct, applied to the mutex of the target. *)
Definition unlock_network_target (p : target_ptr) : M unit :=
  let! t := load p in
  match mutex t with
  | MutexLocked => store p (with_mutex MutexUnlocked t)
  | _ => stuck
  end.

(** ** The error functions

    Both are declared in [private/error.h], which is not part of the
    sources at hand. *)

(** Modelled from the spec: [raise_network_closed], the error-reporting
    mechanism of the specification for the connection-closed condition; it
    accepts a message template, which is recorded. *)
Definition raise_network_closed (message : l10n) : M unit :=
  fun m => Some (tt, report (network_closed message) m).

(** Modelled from the spec: [raise_socket_send_failure], the error-reporting
    mechanism of the specification for the send-failure condition; it
    accepts a message template, an OS error code and a tag for the kind of
    code, which are recorded. *)
Definition raise_socket_send_failure (message : l10n) (code : Z)
    (code_type : l10n) : M unit :=
  fun m => Some (tt, report (socket_send_failure message code code_type) m).

(** ** The operating system *)

(** [close(fd)]. *)
Definition close (fd : Z) : M Z :=
  fun m => match fds m !! fd with
           | Some _ => Some (0, log (EvClose fd) (set_fds (delete fd) m))
           | None => Some (-1, log (EvClose fd) (set_errno EBADF m))
           end.

(** [recv(fd, buffer, len, flags)]. The bytes stored in [buffer] are left
    out: the only caller never reads them. With data waiting the call takes
    up to [len] bytes, and removes them from the stream unless [MSG_PEEK] is
    set. With no data waiting it returns 0 once the peer has shut down;
    before that it fails with [EAGAIN] under [MSG_DONTWAIT] and otherwise
    waits for the peer, which the machine alone never ends. *)
Definition recv (fd len flags : Z) : M Z :=
  fun m =>
    match fds m !! fd with
    | None => Some (-1, log (EvRecv fd len flags (-1)) (set_errno EBADF m))
    | Some s =>
      match inbound s with
      | [] =>
        if fin s then Some (0, log (EvRecv fd len flags 0) m)
        else if has_flag MSG_DONTWAIT flags
        then Some (-1, log (EvRecv fd len flags (-1)) (set_errno EAGAIN m))
        else None
      | _ :: _ =>
        let n := Z.min len (Z.of_nat (length (inbound s))) in
        let s' := if has_flag MSG_PEEK flags then s
                  else with_inbound (drop (Z.to_nat n) (inbound s)) s in
        Some (n, log (EvRecv fd len flags n) (set_fds (insert fd s') m))
      end
    end.

(** [send(fd, buffer, len, flags)], where [buffer] is the memory from the
    pointer passed on. The kernel takes a prefix of the [len] bytes at
    [buffer]: all of them when the plan of the socket is used up, at most
    [k] of them on [Accept k]; on [SendFails e] nothing is taken and [errno]
    is [e]. The flags of the caller bear on signals only. *)
Definition send (fd : Z) (buffer : list byte) (len flags : Z) : M Z :=
  fun m =>
    match fds m !! fd with
    | None => Some (-1, log (EvSend fd len flags (-1)) (set_errno EBADF m))
    | Some s =>
      match send_plan s with
      | SendFails e :: plan =>
        Some (-1, log (EvSend fd len flags (-1))
                    (set_errno e (set_fds (insert fd (with_sent [] plan s)) m)))
      | Accept k :: plan =>
        let n := Z.min (Z.pos k) len in
        Some (n, log (EvSend fd len flags n)
                   (set_fds (insert fd
                      (with_sent (take (Z.to_nat n) buffer) plan s)) m))
      | [] =>
        Some (len, log (EvSend fd len flags len)
                     (set_fds (insert fd
                        (with_sent (take (Z.to_nat len) buffer) [] s)) m))
      end
    end.

(** Modelled from the spec: [config_int_connect] is chosen in
    [private/config/wrapper/int_connect.h] and defined elsewhere in the
    library; neither is part of the sources at hand. The specification asks
    for a connect primitive that resolves address and port, takes the
    address family and the socket type, and returns a handle or the failure
    value. Here the next entry of [connect_plan] decides: a refusal, or a
    peer behind a descriptor, which must be non-negative and free. *)
Definition config_int_connect (host : string) (prt domain type protocol : Z)
    : M Z :=
  fun m =>
    match connect_plan m with
    | [] =>
      Some (-1, log (EvConnect host prt domain type protocol (-1))
                  (set_errno ECONNREFUSED m))
    | Refused e :: plan =>
      Some (-1, log (EvConnect host prt domain type protocol (-1))
                  (set_errno e (set_connect_plan plan m)))
    | Connected fd s :: plan =>
      if (0 <=? fd) && bool_decide (fds m !! fd = None)
      then Some (fd, log (EvConnect host prt domain type protocol fd)
                       (set_fds (insert fd (with_endpoint domain type host prt s))
                          (set_connect_plan plan m)))
      else Some (-1, log (EvConnect host prt domain type protocol (-1))
                       (set_errno EMFILE (set_connect_plan plan m)))
    end.

(** ** The functions of [have_sys_socket.c] *)

Section have_sys_socket.

(** The flag of [private/config.h] handed to every [send]: it asks the
    kernel not to raise a signal where the platform can be asked. *)
Variable config_disallow_signal_during_sending_flag : Z.

(** [unlikely(x)] is a hint to the compiler. *)
Definition unlikely (b : bool) : bool := b.

Definition sys_socket_network_target_is_open (target : target_ptr) : M Z :=
  let! h := get_handle target in
  ret (if h =? -1 then 0 else 1).

Definition sys_socket_close_network_target (target : target_ptr) : M unit :=
  let! h := get_handle target in
  let! _ := (if h =? -1 then ret 0
             else let! h := get_handle target in close h) in
  config_destroy_mutex target.

Definition sys_socket_init_network_target (target : target_ptr) : M unit :=
  let! _ := set_handle target (-1) in
  config_init_mutex target.

Definition sys_socket_open_tcp4_target (target : target_ptr)
    : M (option target_ptr) :=
  let! _ := lock_network_target target in
  let! d := get_destination target in
  let! p := get_port target in
  let! result := config_int_connect d p AF_INET SOCK_STREAM 0 in
  let! _ := set_handle target result in
  let! _ := unlock_network_target target in
  ret (if result =? -1 then NULL else Some target).

Definition sys_socket_open_tcp6_target (target : target_ptr)
    : M (option target_ptr) :=
  let! _ := lock_network_target target in
  let! d := get_destination target in
  let! p := get_port target in
  let! result := config_int_connect d p AF_INET6 SOCK_STREAM 0 in
  let! _ := set_handle target result in
  let! _ := unlock_network_target target in
  ret (if result =? -1 then NULL else Some target).

Definition sys_socket_open_udp4_target (target : target_ptr)
    : M (option target_ptr) :=
  let! _ := lock_network_target target in
  let! d := get_destination target in
  let! p := get_port target in
  let! result := config_int_connect d p AF_INET SOCK_DGRAM 0 in
  let! _ := set_handle target result in
  let! _ := unlock_network_target target in
  ret (if result =? -1 then NULL else Some target).

Definition sys_socket_open_udp6_target (target : target_ptr)
    : M (option target_ptr) :=
  let! _ := lock_network_target target in
  let! d := get_destination target in
  let! p := get_port target in
  let! result := config_int_connect d p AF_INET6 SOCK_DGRAM 0 in
  let! _ := set_handle target result in
  let! _ := unlock_network_target target in
  ret (if result =? -1 then NULL else Some target).

Definition sys_socket_reopen_tcp4_target (target : target_ptr)
    : M (option target_ptr) :=
  let! _ := lock_network_target target in
  let! is_open := sys_socket_network_target_is_open target in
  let! _ := (if is_open =? 0 then ret tt
             else
               let! h := get_handle target in
               let! _ := close h in
               let! d := get_destination target in
               let! p := get_port target in
               let! fd := config_int_connect d p AF_INET SOCK_STREAM 0 in
               set_handle target fd) in
  let! _ := unlock_network_target target in
  ret (Some target).

Definition sys_socket_reopen_tcp6_target (target : target_ptr)
    : M (option target_ptr) :=
  let! _ := lock_network_target target in
  let! is_open := sys_socket_network_target_is_open target in
  let! _ := (if is_open =? 0 then ret tt
             else
               let! h := get_handle target in
               let! _ := close h in
               let! d := get_destination target in
               let! p := get_port target in
               let! fd := config_int_connect d p AF_INET6 SOCK_STREAM 0 in
               set_handle target fd) in
  let! _ := unlock_network_target target in
  ret (Some target).

Definition sys_socket_reopen_udp4_target (target : target_ptr)
    : M (option target_ptr) :=
  let! _ := lock_network_target target in
  let! is_open := sys_socket_network_target_is_open target in
  let! _ := (if is_open =? 0 then ret tt
             else
               let! h := get_handle target in
               let! _ := close h in
               let! d := get_destination target in
               let! p := get_port target in
               let! fd := config_int_connect d p AF_INET SOCK_DGRAM 0 in
               set_handle target fd) in
  let! _ := unlock_network_target target in
  ret (Some target).

Definition sys_socket_reopen_udp6_target (target : target_ptr)
    : M (option target_ptr) :=
  let! _ := lock_network_target target in
  let! is_open := sys_socket_network_target_is_open target in
  let! _ := (if is_open =? 0 then ret tt
             else
               let! h := get_handle target in
               let! _ := close h in
               let! d := get_destination target in
               let! p := get_port target in
               let! fd := config_int_connect d p AF_INET6 SOCK_DGRAM 0 in
               set_handle target fd) in
  let! _ := unlock_network_target target in
  ret (Some target).

(** One pass through the body of the [while] loop of
    [sys_socket_sendto_tcp_target]: it ends in a [break] with the value of
    the local [result], or at the end of the body with the new value of
    [sent_bytes]. *)
Definition sendto_tcp_body (target : target_ptr) (msg : list byte)
    (msg_size sent_bytes : Z) : M loop_control :=
  let! h := get_handle target in
  let! recv_result := recv h 1 MSG_DONTWAIT in
  if recv_result =? 0 then
    let! _ := raise_network_closed L10N_NETWORK_CLOSED_ERROR_MESSAGE in
    let! h := get_handle target in
    let! _ := close h in
    let! _ := set_handle target (-1) in
    ret (Break (-1))
  else
    let! h := get_handle target in
    let! send_result :=
      send h msg (size_t (msg_size - sent_bytes))
           config_disallow_signal_during_sending_flag in
    if unlikely (send_result =? -1) then
      let! e := get_errno in
      let! _ := raise_socket_send_failure
                  L10N_SEND_SYS_SOCKET_FAILED_ERROR_MESSAGE e
                  L10N_ERRNO_ERROR_CODE_TYPE in
      ret (Break (-1))
    else
      ret (Continue (size_t (sent_bytes + send_result))).

(** The loop itself; it returns the local [result]. [fuel] bounds the
    number of tests of the loop condition; [msg_size + 1] tests are always
    enough, as [sendto_tcp_loop_spec] shows. *)
Fixpoint sendto_tcp_loop (fuel : nat) (target : target_ptr) (msg : list byte)
    (msg_size sent_bytes result : Z) : M Z :=
  match fuel with
  | O => stuck
  | S fuel' =>
    if sent_bytes <? msg_size then
      let! c := sendto_tcp_body target msg msg_size sent_bytes in
      match c with
      | Break result => ret result
      | Continue sent_bytes =>
        sendto_tcp_loop fuel' target msg msg_size sent_bytes result
      end
    else ret result
  end.

Definition sys_socket_sendto_tcp_target (target : target_ptr)
    (msg : list byte) (msg_size : Z) : M Z :=
  let sent_bytes := 0 in
  let result := 1 in
  let! _ := lock_network_target target in
  let! result := sendto_tcp_loop (S (Z.to_nat msg_size)) target msg
                                 msg_size sent_bytes result in
  let! _ := unlock_network_target target in
  ret result.

Definition sys_socket_sendto_udp_target (target : target_ptr)
    (msg : list byte) (msg_size : Z) : M Z :=
  let! _ := lock_network_target target in
  let! h := get_handle target in
  let! send_result :=
    send h msg msg_size config_disallow_signal_during_sending_flag in
  if unlikely (send_result =? -1) then
    let! _ := unlock_network_target target in
    let! e := get_errno in
    let! _ := raise_socket_send_failure
                L10N_SEND_SYS_SOCKET_FAILED_ERROR_MESSAGE e
                L10N_ERRNO_ERROR_CODE_TYPE in
    ret (-1)
  else
    let! _ := unlock_network_target target in
    ret 1.

End have_sys_socket.

(** ** The single routine of the specification

    The specification describes the four open operations as one algorithm
    over the address family and the socket type, and the four reopen
    operations as another. These two definitions follow its words; they are
    compared with the eight functions of the file further down. *)

(** Acquire the mutex; connect to [destination:port] with the given family
    and socket type; store the handle, or the closed value on failure;
    release the mutex; return the target, or the failure indicator if the
    connect failed. *)
Definition open_target (domain type : Z) (target : target_ptr)
    : M (option target_ptr) :=
  let! _ := lock_network_target target in
  let! t := load target in
  let! fd := config_int_connect (destination t) (port t) domain type 0 in
  if bool_decide (fd = -1) then
    let! _ := set_handle target (-1) in
    let! _ := unlock_network_target target in
    ret NULL
  else
    let! _ := set_handle target fd in
    let! _ := unlock_network_target target in
    ret (Some target).

(** Acquire the mutex; if the target is open, close the handle it holds and
    connect again with the given family and socket type; release the mutex;
    return the target in every case. *)
Definition reopen_target (domain type : Z) (target : target_ptr)
    : M (option target_ptr) :=
  let! _ := lock_network_target target in
  let! t := load target in
  let! _ := (if bool_decide (handle t = -1) then ret tt
             else
               let! _ := close (handle t) in
               let! fd := config_int_connect (destination t) (port t)
                                             domain type 0 in
               set_handle target fd) in
  let! _ := unlock_network_target target in
  ret (Some target).

(** The entry points with the pair each one passes to the connect wrapper. *)
Definition open_variants
    : list ((target_ptr -> M (option target_ptr)) * Z * Z) :=
  [ (sys_socket_open_tcp4_target, AF_INET, SOCK_STREAM);
    (sys_socket_open_tcp6_target, AF_INET6, SOCK_STREAM);
    (sys_socket_open_udp4_target, AF_INET, SOCK_DGRAM);
    (sys_socket_open_udp6_target, AF_INET6, SOCK_DGRAM) ].

Definition reopen_variants
    : list ((target_ptr -> M (option target_ptr)) * Z * Z) :=
  [ (sys_socket_reopen_tcp4_target, AF_INET, SOCK_STREAM);
    (sys_socket_reopen_tcp6_target, AF_INET6, SOCK_STREAM);
    (sys_socket_reopen_udp4_target, AF_INET, SOCK_DGRAM);
    (sys_socket_reopen_udp6_target, AF_INET6, SOCK_DGRAM) ].


(** ** Predicates on machines *)

(** Every descriptor the process holds is the handle stored in the target
    at [p]; in particular the process holds at most one. *)
Definition sole_handle (p : target_ptr) (m : machine) : Prop :=
  forall fd s, fds m !! fd = Some s ->
    exists t, targets m !! p = Some t /\ handle t = fd /\ fd <> -1.

(** ** Examples of machines *)

Definition example_socket (data : list byte) (shut : bool)
    (plan : list send_outcome) : socket :=
  {| sock_domain := AF_INET; sock_type := SOCK_STREAM;
     sock_host := "localhost"; sock_port := 514;
     inbound := data; fin := shut; delivered := []; send_plan := plan |}.

Definition example_target (h : Z) : network_target :=
  {| destination := "localhost"; port := 514;
     handle := h; mutex := MutexUnlocked |}.

(** One target at address 1, with the given handle, descriptor table and
    connection attempts to come. *)
Definition example_machine (h : Z) (table : gmap Z socket)
    (plan : list connect_outcome) : machine :=
  {| targets := {[ 1%positive := example_target h ]}; fds := table;
     errno := 0; connect_plan := plan; trace := []; errors := [] |}.

(** A target that was never opened, and a peer that would accept. *)
Definition never_opened : machine :=
  example_machine (-1) ∅ [Connected 3 (example_socket [] false [])].

(** A target that was never opened, and a peer that refuses. *)
Definition unreachable : machine :=
  example_machine (-1) ∅ [Refused ECONNREFUSED].

(** Memory that still holds an old handle and a spent mutex. *)
Definition stale_target : network_target :=
  {| destination := "localhost"; port := 514;
     handle := 7; mutex := MutexDestroyed |}.

Definition stale_machine : machine :=
  {| targets := {[ 2%positive := stale_target ]}; fds := ∅; errno := 0;
     connect_plan := []; trace := []; errors := [] |}.

(** A target that holds descriptor 3, and a peer that would accept on 4. *)
Definition already_open : machine :=
  example_machine 3 {[ 3 := example_socket [] false [] ]}
                  [Connected 4 (example_socket [] false [])].

(** A connected target whose peer takes one byte for the first [send]. *)
Definition one_byte_first : machine :=
  example_machine 3 {[ 3 := example_socket [] false [Accept 1] ]} [].

(** A connected target whose next [send] fails with [EPIPE]. *)
Definition broken_pipe : machine :=
  example_machine 3 {[ 3 := example_socket [] false [SendFails EPIPE] ]} [].

(** A connected target whose peer has sent one byte and nothing more yet. *)
Definition pending_data : machine :=
  example_machine 3 {[ 3 := example_socket ["A"%byte] false [] ]} [].

(** A connected target whose peer has sent one byte and then shut down. *)
Definition shutdown_after_data : machine :=
  example_machine 3 {[ 3 := example_socket ["A"%byte] true [] ]} [].

(** A connected target whose peer has shut down without sending. *)
Definition peer_gone : machine :=
  example_machine 3 {[ 3 := example_socket [] true [] ]} [].

(** A connected target whose peer is silent. *)
Definition quiet_peer : machine :=
  example_machine 3 {[ 3 := example_socket [] false [] ]} [].

(** The memory of [stale_machine], and a peer that would accept on 3. *)
Definition stale_and_reachable : machine :=
  {| targets := {[ 2%positive := stale_target ]}; fds := ∅; errno := 0;
     connect_plan := [Connected 3 (example_socket [] false [])];
     trace := []; errors := [] |}.

(** A target on descriptor 3 in a process that also holds descriptor 5,
    and a peer that would accept on 4. *)
Definition two_descriptors : machine :=
  example_machine 3
    (<[ 5 := example_socket ["B"%byte] false [] ]>
       {[ 3 := example_socket [] true [Accept 1] ]})
    [Connected 4 (example_socket [] false [])].

(** A connected target whose peer takes one byte and then breaks the
    pipe. *)
Definition pipe_breaks_midway : machine :=
  example_machine 3
    {[ 3 := example_socket [] false [Accept 1; SendFails EPIPE] ]} [].

(** The memory of [stale_machine] with its old handle 7 still an open
    descriptor, and a peer that would accept on 3. *)
Definition stale_and_live : machine :=
  {| targets := {[ 2%positive := stale_target ]};
     fds := {[ 7 := example_socket [] false [] ]}; errno := 0;
     connect_plan := [Connected 3 (example_socket [] false [])];
     trace := []; errors := [] |}.

(** ** Running computations *)

Lemma bind_Some {A B} (c : M A) (k : A -> M B) m a m' :
  c m = Some (a, m') -> bind c k m = k a m'.
Proof. unfold bind. intros ->. reflexivity. Qed.

Lemma bind_None {A B} (c : M A) (k : A -> M B) m :
  c m = None -> bind c k m = None.
Proof. unfold bind. intros ->. reflexivity. Qed.

Lemma bind_assoc {A B C} (c : M A) (k : A -> M B) (k' : B -> M C) m :
  bind (bind c k) k' m = bind c (fun a => bind (k a) k') m.
Proof. unfold bind. destruct (c m) as [[a m']|]; reflexivity. Qed.

Lemma bind_inv {A B} (c : M A) (k : A -> M B) m b m' :
  bind c k m = Some (b, m') ->
  exists a m1, c m = Some (a, m1) /\ k a m1 = Some (b, m').
Proof.
  unfold bind. destruct (c m) as [[a m1]|]; [|discriminate].
  intros H. exists a, m1. split; [reflexivity | exact H].
Qed.

Lemma ret_eq {A} (a : A) m : ret a m = Some (a, m).
Proof. reflexivity. Qed.

Section memory.

Context (p : target_ptr) (t : network_target) (m : machine).
Hypothesis Hp : targets m !! p = Some t.

Lemma load_eq : load p m = Some (t, m).
Proof using Hp. unfold load. rewrite Hp. reflexivity. Qed.

Lemma store_eq t' : store p t' m = Some (tt, set_targets (insert p t') m).
Proof using Hp. unfold store. rewrite Hp. reflexivity. Qed.

Lemma get_handle_eq : get_handle p m = Some (handle t, m).
Proof using Hp. unfold get_handle. rewrite (bind_Some _ _ _ _ _ load_eq). reflexivity. Qed.

Lemma get_destination_eq : get_destination p m = Some (destination t, m).
Proof using Hp. unfold get_destination. rewrite (bind_Some _ _ _ _ _ load_eq). reflexivity. Qed.

Lemma get_port_eq : get_port p m = Some (port t, m).
Proof using Hp. unfold get_port. rewrite (bind_Some _ _ _ _ _ load_eq). reflexivity. Qed.

Lemma set_handle_eq h :
  set_handle p h m = Some (tt, set_targets (insert p (with_handle h t)) m).
Proof using Hp. unfold set_handle. rewrite (bind_Some _ _ _ _ _ load_eq). apply store_eq. Qed.

Lemma config_init_mutex_eq :
  config_init_mutex p m
  = Some (tt, set_targets (insert p (with_mutex MutexUnlocked t)) m).
Proof using Hp. unfold config_init_mutex. rewrite (bind_Some _ _ _ _ _ load_eq). apply store_eq. Qed.

Lemma lock_network_target_eq :
  mutex t = MutexUnlocked ->
  lock_network_target p m
  = Some (tt, set_targets (insert p (with_mutex MutexLocked t)) m).
Proof using Hp.
  intros Hmu. unfold lock_network_target.
  rewrite (bind_Some _ _ _ _ _ load_eq), Hmu. apply store_eq.
Qed.

Lemma unlock_network_target_eq :
  mutex t = MutexLocked ->
  unlock_network_target p m
  = Some (tt, set_targets (insert p (with_mutex MutexUnlocked t)) m).
Proof using Hp.
  intros Hmu. unfold unlock_network_target.
  rewrite (bind_Some _ _ _ _ _ load_eq), Hmu. apply store_eq.
Qed.

Lemma is_open_eq :
  sys_socket_network_target_is_open p m
  = Some (if handle t =? -1 then 0 else 1, m).
Proof using Hp.
  unfold sys_socket_network_target_is_open.
  rewrite (bind_Some _ _ _ _ _ get_handle_eq). reflexivity.
Qed.

End memory.

Lemma get_errno_eq m : get_errno m = Some (errno m, m).
Proof. reflexivity. Qed.

Lemma raise_network_closed_eq msg m :
  raise_network_closed msg m = Some (tt, report (network_closed msg) m).
Proof. reflexivity. Qed.

Lemma raise_socket_send_failure_eq msg code ty m :
  raise_socket_send_failure msg code ty m
  = Some (tt, report (socket_send_failure msg code ty) m).
Proof. reflexivity. Qed.

(** Projections of a machine under construction. *)
Tactic Notation "machine_simpl" "in" hyp(H) :=
  cbn [targets fds errno connect_plan trace errors
       set_targets set_fds set_errno set_connect_plan log report
       destination port handle mutex with_handle with_mutex] in H.

Ltac machine_simpl :=
  cbn [targets fds errno connect_plan trace errors
       set_targets set_fds set_errno set_connect_plan log report
       destination port handle mutex with_handle with_mutex].

(** The target at [p] in the machine of the goal. *)
Ltac find_target :=
  machine_simpl;
  repeat match goal with
         | H : targets _ = _ |- _ => rewrite H; machine_simpl
         end;
  first [ eassumption | apply lookup_insert_eq ].

(** One call at the head of a sequence. *)
Ltac call :=
  first
    [ erewrite bind_Some by
        first [ apply ret_eq
              | apply get_errno_eq
              | apply raise_network_closed_eq
              | apply raise_socket_send_failure_eq
              | eapply get_handle_eq; find_target
              | eapply get_destination_eq; find_target
              | eapply get_port_eq; find_target
              | eapply load_eq; find_target
              | eapply set_handle_eq; find_target
              | eapply is_open_eq; find_target
              | eapply lock_network_target_eq; [find_target | reflexivity || eassumption]
              | eapply unlock_network_target_eq; [find_target | reflexivity]
              | eassumption ]
    | rewrite bind_assoc ];
  cbv beta; machine_simpl.

Lemma machine_eq m m' :
  targets m = targets m' -> fds m = fds m' -> errno m = errno m' ->
  connect_plan m = connect_plan m' -> trace m = trace m' ->
  errors m = errors m' -> m = m'.
Proof. destruct m, m'; cbn; intros; subst; reflexivity. Qed.

Lemma target_eq t t' :
  destination t = destination t' -> port t = port t' ->
  handle t = handle t' -> mutex t = mutex t' -> t = t'.
Proof. destruct t, t'; cbn; intros; subst; reflexivity. Qed.

(** ** What the calls into the environment leave behind *)

Lemma close_spec fd m :
  exists r m',
    close fd m = Some (r, m') /\
    targets m' = targets m /\ errors m' = errors m /\
    connect_plan m' = connect_plan m /\
    trace m' = trace m ++ [EvClose fd] /\
    fds m' = delete fd (fds m).
Proof.
  unfold close. destruct (fds m !! fd) eqn:Hfd.
  - eexists _, _. split; [reflexivity|]. machine_simpl. auto 10.
  - eexists _, _. split; [reflexivity|]. machine_simpl.
    repeat split; try reflexivity. symmetry. apply delete_id, Hfd.
Qed.

Lemma config_int_connect_spec host prt domain type protocol m :
  exists fd m',
    config_int_connect host prt domain type protocol m = Some (fd, m') /\
    targets m' = targets m /\ errors m' = errors m /\
    trace m' = trace m ++ [EvConnect host prt domain type protocol fd] /\
    ((fd = -1 /\ fds m' = fds m) \/
     (fd <> -1 /\ fds m !! fd = None /\
      exists s, fds m' = <[fd := s]> (fds m))).
Proof.
  unfold config_int_connect.
  destruct (connect_plan m) as [|[e|fd s] plan].
  - eexists _, _. split; [reflexivity|]. machine_simpl. auto 10.
  - eexists _, _. split; [reflexivity|]. machine_simpl. auto 10.
  - destruct (0 <=? fd) eqn:Hfd; cbn [andb].
    + destruct (bool_decide (fds m !! fd = None)) eqn:Hfree.
      * apply bool_decide_eq_true in Hfree. apply Z.leb_le in Hfd.
        eexists _, _. split; [reflexivity|]. machine_simpl.
        repeat split; try reflexivity. right.
        split; [lia|]. split; [exact Hfree|]. eexists. reflexivity.
      * eexists _, _. split; [reflexivity|]. machine_simpl. auto 10.
    + eexists _, _. split; [reflexivity|]. machine_simpl. auto 10.
Qed.

Lemma lock_network_target_inv p m u m' :
  lock_network_target p m = Some (u, m') ->
  exists t, targets m !! p = Some t /\ mutex t = MutexUnlocked.
Proof.
  unfold lock_network_target. intros H.
  apply bind_inv in H as (t & m1 & Hl & H).
  unfold load in Hl. destruct (targets m !! p) as [t'|] eqn:Ht; [|discriminate].
  injection Hl as -> ->. exists t. split; [reflexivity|].
  destruct (mutex t); try discriminate. reflexivity.
Qed.

Lemma bind_lock_ext {B} p (k k' : unit -> M B) m :
  (forall t, targets m !! p = Some t -> mutex t = MutexUnlocked ->
     bind (lock_network_target p) k m = bind (lock_network_target p) k' m) ->
  bind (lock_network_target p) k m = bind (lock_network_target p) k' m.
Proof.
  intros H. destruct (lock_network_target p m) as [[u m']|] eqn:Hl.
  - apply lock_network_target_inv in Hl as (t & Ht & Hmu). eauto.
  - rewrite !bind_None by assumption. reflexivity.
Qed.

(** ** The eight entry points and the two routines *)

Lemma open_code_eq domain type p m :
  (let! _ := lock_network_target p in
   let! d := get_destination p in
   let! pt := get_port p in
   let! result := config_int_connect d pt domain type 0 in
   let! _ := set_handle p result in
   let! _ := unlock_network_target p in
   ret (if result =? -1 then NULL else Some p)) m
  = open_target domain type p m.
Proof.
  unfold open_target. apply bind_lock_ext. intros t Ht Hmu.
  repeat call. symmetry. repeat call.
  destruct (config_int_connect_spec (destination t) (port t) domain type 0
              (set_targets <[p:=with_mutex MutexLocked t]> m))
    as (fd & m1 & Hc & Htg & _).
  machine_simpl in Htg.
  call. symmetry. call.
  case_bool_decide as Hfd.
  - subst fd. repeat call. symmetry. repeat call. reflexivity.
  - repeat call. symmetry. repeat call.
    rewrite (proj2 (Z.eqb_neq fd (-1)) Hfd). reflexivity.
Qed.

Lemma reopen_code_eq domain type p m :
  (let! _ := lock_network_target p in
   let! is_open := sys_socket_network_target_is_open p in
   let! _ := (if is_open =? 0 then ret tt
              else
                let! h := get_handle p in
                let! _ := close h in
                let! d := get_destination p in
                let! pt := get_port p in
                let! fd := config_int_connect d pt domain type 0 in
                set_handle p fd) in
   let! _ := unlock_network_target p in
   ret (Some p)) m
  = reopen_target domain type p m.
Proof.
  unfold reopen_target. apply bind_lock_ext. intros t Ht Hmu.
  repeat call. symmetry. repeat call.
  case_bool_decide as Hh.
  - rewrite Hh. reflexivity.
  - rewrite (proj2 (Z.eqb_neq (handle t) (-1)) Hh). cbn [Z.eqb].
    destruct (close_spec (handle t)
                (set_targets <[p:=with_mutex MutexLocked t]> m))
      as (r & m1 & Hcl & Htg & _).
    machine_simpl in Htg.
    repeat call. symmetry. repeat call. reflexivity.
Qed.

Lemma open_variants_param op domain type :
  In (op, domain, type) open_variants ->
  forall p m, op p m = open_target domain type p m.
Proof.
  intros Hin p m. cbn in Hin.
  repeat (destruct Hin as [Hin|Hin];
          [injection Hin as <- <- <-; apply open_code_eq|]).
  destruct Hin.
Qed.

Lemma reopen_variants_param op domain type :
  In (op, domain, type) reopen_variants ->
  forall p m, op p m = reopen_target domain type p m.
Proof.
  intros Hin p m. cbn in Hin.
  repeat (destruct Hin as [Hin|Hin];
          [injection Hin as <- <- <-; apply reopen_code_eq|]).
  destruct Hin.
Qed.

(** C9. The four open functions are one routine applied to the pairs
    (AF_INET, SOCK_STREAM), (AF_INET6, SOCK_STREAM), (AF_INET, SOCK_DGRAM)
    and (AF_INET6, SOCK_DGRAM), and the four reopen functions are another
    routine applied to the same pairs: on every machine each function and
    the routine return the same value and leave the same machine, or both
    fail to return. *)
Theorem open_reopen_one_algorithm (p : target_ptr) (m : machine) :
  (sys_socket_open_tcp4_target p m = open_target AF_INET SOCK_STREAM p m /\
   sys_socket_open_tcp6_target p m = open_target AF_INET6 SOCK_STREAM p m /\
   sys_socket_open_udp4_target p m = open_target AF_INET SOCK_DGRAM p m /\
   sys_socket_open_udp6_target p m = open_target AF_INET6 SOCK_DGRAM p m) /\
  (sys_socket_reopen_tcp4_target p m = reopen_target AF_INET SOCK_STREAM p m /\
   sys_socket_reopen_tcp6_target p m = reopen_target AF_INET6 SOCK_STREAM p m /\
   sys_socket_reopen_udp4_target p m = reopen_target AF_INET SOCK_DGRAM p m /\
   sys_socket_reopen_udp6_target p m = reopen_target AF_INET6 SOCK_DGRAM p m).
Proof.
  split.
  - repeat split; apply open_code_eq.
  - repeat split; apply reopen_code_eq.
Qed.

(** ** The two routines on a target that is ready *)

Lemma relock_eq h t :
  mutex t = MutexUnlocked ->
  with_mutex MutexUnlocked (with_handle h (with_mutex MutexLocked t))
  = with_handle h t.
Proof. intros Hmu. apply target_eq; cbn; congruence. Qed.

Lemma with_handle_id t : with_handle (handle t) t = t.
Proof. apply target_eq; reflexivity. Qed.

Lemma open_target_spec domain type p t m :
  targets m !! p = Some t -> mutex t = MutexUnlocked ->
  exists fd m',
    open_target domain type p m
    = Some (if bool_decide (fd = -1) then NULL else Some p, m') /\
    targets m' = <[p := with_handle fd t]> (targets m) /\
    errors m' = errors m /\
    trace m' = trace m ++ [EvConnect (destination t) (port t) domain type 0 fd] /\
    ((fd = -1 /\ fds m' = fds m) \/
     (fd <> -1 /\ fds m !! fd = None /\
      exists s, fds m' = <[fd := s]> (fds m))).
Proof.
  intros Ht Hmu. unfold open_target. repeat call.
  destruct (config_int_connect_spec (destination t) (port t) domain type 0
              (set_targets <[p:=with_mutex MutexLocked t]> m))
    as (fd & m1 & Hc & Htg & Herr & Htr & Hfds).
  machine_simpl in Htg. machine_simpl in Herr. machine_simpl in Htr.
  machine_simpl in Hfds.
  call. exists fd.
  case_bool_decide as Hfd.
  - subst fd. repeat call. eexists. split; [reflexivity|]. machine_simpl.
    rewrite Htg, !insert_insert_eq, relock_eq by assumption. auto.
  - repeat call. eexists. split; [reflexivity|]. machine_simpl.
    rewrite Htg, !insert_insert_eq, relock_eq by assumption. auto.
Qed.

Lemma reopen_target_closed domain type p t m :
  targets m !! p = Some t -> mutex t = MutexUnlocked -> handle t = -1 ->
  reopen_target domain type p m = Some (Some p, m).
Proof.
  intros Ht Hmu Hh. unfold reopen_target. repeat call.
  rewrite bool_decide_eq_true_2 by assumption. repeat call.
  unfold ret. do 2 f_equal. apply machine_eq; machine_simpl; try reflexivity.
  rewrite insert_insert_eq. apply insert_id. rewrite Ht. f_equal.
  apply target_eq; cbn; congruence.
Qed.

Lemma reopen_target_open domain type p t m :
  targets m !! p = Some t -> mutex t = MutexUnlocked -> handle t <> -1 ->
  exists fd m',
    reopen_target domain type p m = Some (Some p, m') /\
    targets m' = <[p := with_handle fd t]> (targets m) /\
    errors m' = errors m /\
    trace m' = trace m ++ [EvClose (handle t);
                           EvConnect (destination t) (port t) domain type 0 fd] /\
    ((fd = -1 /\ fds m' = delete (handle t) (fds m)) \/
     (fd <> -1 /\ delete (handle t) (fds m) !! fd = None /\
      exists s, fds m' = <[fd := s]> (delete (handle t) (fds m)))).
Proof.
  intros Ht Hmu Hh. unfold reopen_target. repeat call.
  rewrite bool_decide_eq_false_2 by assumption.
  destruct (close_spec (handle t)
              (set_targets <[p:=with_mutex MutexLocked t]> m))
    as (r & m1 & Hcl & Htg1 & Herr1 & _ & Htr1 & Hfds1).
  machine_simpl in Htg1. machine_simpl in Herr1. machine_simpl in Htr1.
  machine_simpl in Hfds1.
  repeat call.
  destruct (config_int_connect_spec (destination t) (port t) domain type 0 m1)
    as (fd & m2 & Hc & Htg2 & Herr2 & Htr2 & Hfds2).
  rewrite Htg1 in Htg2. rewrite Herr1 in Herr2. rewrite Htr1 in Htr2.
  rewrite Hfds1 in Hfds2. clear Htg1.
  repeat call. exists fd. eexists. split; [reflexivity|]. machine_simpl.
  rewrite Htg2, !insert_insert_eq, relock_eq by assumption.
  rewrite <- app_assoc in Htr2. auto.
Qed.

Lemma reopen_target_returns domain type p t m :
  targets m !! p = Some t -> mutex t = MutexUnlocked ->
  exists m', reopen_target domain type p m = Some (Some p, m').
Proof.
  intros Ht Hmu. destruct (decide (handle t = -1)) as [Hh|Hh].
  - exists m. eapply reopen_target_closed; eassumption.
  - destruct (reopen_target_open domain type p t m Ht Hmu Hh)
      as (fd & m' & H & _).
    exists m'. exact H.
Qed.

(** ** Keeping to one handle *)

Lemma sole_handle_closed p t m :
  targets m !! p = Some t -> handle t = -1 -> sole_handle p m -> fds m = ∅.
Proof.
  intros Ht Hh Hsole. apply map_empty. intros fd.
  destruct (fds m !! fd) as [s|] eqn:Hfd; [|reflexivity].
  destruct (Hsole fd s Hfd) as (t' & Ht' & Hh' & Hne).
  rewrite Ht in Ht'. injection Ht' as <-. congruence.
Qed.

Lemma sole_handle_delete p t m :
  targets m !! p = Some t -> sole_handle p m -> delete (handle t) (fds m) = ∅.
Proof.
  intros Ht Hsole. apply map_empty. intros fd.
  destruct (delete (handle t) (fds m) !! fd) as [s|] eqn:Hfd; [|reflexivity].
  apply lookup_delete_Some in Hfd as [Hne Hfd].
  destruct (Hsole fd s Hfd) as (t' & Ht' & Hh' & _).
  rewrite Ht in Ht'. injection Ht' as <-. congruence.
Qed.

Lemma sole_handle_connected p t m m' fd :
  targets m' = <[p := with_handle fd t]> (targets m) ->
  (fd = -1 /\ fds m' = ∅) \/ (fd <> -1 /\ exists s, fds m' = <[fd := s]> ∅) ->
  sole_handle p m'.
Proof.
  intros Htg [[-> Hfds]|[Hfd [s Hfds]]] fd' s' Hl; rewrite Hfds in Hl.
  - rewrite lookup_empty in Hl. discriminate.
  - apply lookup_insert_Some in Hl as [[<- _]|[_ Hl]].
    + exists (with_handle fd t). rewrite Htg, lookup_insert_eq. auto.
    + rewrite lookup_empty in Hl. discriminate.
Qed.

(** ** Opening *)

(** C5. Each of the four open functions, on a target that is ready, makes
    one connection attempt; when the attempt yields a handle the function
    returns the pointer it was given and stores the handle, and when the
    attempt fails (the connect wrapper returns -1) it returns the null
    pointer and the handle of the target is the closed value -1. *)
Theorem open_returns_target_or_null
    (op : target_ptr -> M (option target_ptr)) (domain type : Z)
    (p : target_ptr) (t : network_target) (m : machine) :
  In (op, domain, type) open_variants ->
  targets m !! p = Some t ->
  mutex t = MutexUnlocked ->
  exists fd r m' t',
    op p m = Some (r, m') /\
    trace m' = trace m ++ [EvConnect (destination t) (port t) domain type 0 fd] /\
    targets m' !! p = Some t' /\
    handle t' = fd /\
    (fd <> -1 -> r = Some p) /\
    (fd = -1 -> r = NULL /\ handle t' = -1).
Proof.
  intros Hin Ht Hmu.
  destruct (open_target_spec domain type p t m Ht Hmu)
    as (fd & m' & Hop & Htg & _ & Htr & _).
  exists fd, (if bool_decide (fd = -1) then NULL else Some p), m',
    (with_handle fd t).
  split; [rewrite (open_variants_param _ _ _ Hin); exact Hop|].
  split; [exact Htr|].
  split; [rewrite Htg; apply lookup_insert_eq|].
  split; [reflexivity|].
  split.
  - intros Hfd. rewrite bool_decide_eq_false_2 by assumption. reflexivity.
  - intros Hfd. rewrite bool_decide_eq_true_2 by assumption. auto.
Qed.

(** A refused connection on a fresh target. *)
Lemma open_returns_target_or_null_witness :
  In (sys_socket_open_udp6_target, AF_INET6, SOCK_DGRAM) open_variants /\
  targets unreachable !! 1%positive = Some (example_target (-1)) /\
  mutex (example_target (-1)) = MutexUnlocked /\
  exists fd r m' t',
    sys_socket_open_udp6_target 1%positive unreachable = Some (r, m') /\
    trace m' = trace unreachable
               ++ [EvConnect (destination (example_target (-1)))
                             (port (example_target (-1)))
                             AF_INET6 SOCK_DGRAM 0 fd] /\
    targets m' !! 1%positive = Some t' /\
    handle t' = fd /\
    (fd <> -1 -> r = Some 1%positive) /\
    (fd = -1 -> r = NULL /\ handle t' = -1).
Proof.
  assert (Hin : In (sys_socket_open_udp6_target, AF_INET6, SOCK_DGRAM)
                   open_variants) by (cbn; auto).
  split; [exact Hin|].
  split; [reflexivity|].
  split; [reflexivity|].
  apply (open_returns_target_or_null _ _ _ _ _ _ Hin);
    reflexivity.
Defined.

(** ** Reopening *)

(** C6. On a target whose handle is the closed value -1, each of the four
    reopen functions returns the pointer it was given and leaves the machine
    as it found it: nothing is added to the trace, so no connection is
    attempted, and [is_open] still answers 0. On every target that is ready
    the call returns the pointer it was given, never the null pointer,
    whatever the reconnection does. *)
Theorem reopen_closed_is_noop
    (op : target_ptr -> M (option target_ptr)) (domain type : Z)
    (p : target_ptr) (t : network_target) (m : machine) :
  In (op, domain, type) reopen_variants ->
  targets m !! p = Some t ->
  mutex t = MutexUnlocked ->
  (handle t = -1 ->
     op p m = Some (Some p, m) /\
     sys_socket_network_target_is_open p m = Some (0, m)) /\
  (exists m', op p m = Some (Some p, m')).
Proof.
  intros Hin Ht Hmu. rewrite (reopen_variants_param _ _ _ Hin). split.
  - intros Hh. split.
    + eapply reopen_target_closed; eassumption.
    + rewrite (is_open_eq p t m Ht), Hh. reflexivity.
  - eapply reopen_target_returns; eassumption.
Qed.

(** A target that was never opened, with a peer that would accept. *)
Lemma reopen_closed_is_noop_witness :
  In (sys_socket_reopen_tcp4_target, AF_INET, SOCK_STREAM) reopen_variants /\
  targets never_opened !! 1%positive = Some (example_target (-1)) /\
  mutex (example_target (-1)) = MutexUnlocked /\
  (handle (example_target (-1)) = -1 ->
     sys_socket_reopen_tcp4_target 1%positive never_opened
     = Some (Some 1%positive, never_opened) /\
     sys_socket_network_target_is_open 1%positive never_opened
     = Some (0, never_opened)) /\
  (exists m', sys_socket_reopen_tcp4_target 1%positive never_opened
              = Some (Some 1%positive, m')).
Proof.
  assert (Hin : In (sys_socket_reopen_tcp4_target, AF_INET, SOCK_STREAM)
                   reopen_variants) by (cbn; auto).
  split; [exact Hin|].
  split; [reflexivity|].
  split; [reflexivity|].
  apply (reopen_closed_is_noop _ _ _ _ _ _ Hin); reflexivity.
Defined.

(** ** The state of a handle *)

(** C8. [is_open] answers a non-zero value exactly when the handle of the
    target differs from the closed value -1, and leaves the machine as it
    found it. [init] stores -1 in the handle, so [is_open] answers 0 right
    after it. *)
Theorem is_open_iff_handle_not_closed
    (p : target_ptr) (t : network_target) (m : machine) :
  targets m !! p = Some t ->
  (exists r, sys_socket_network_target_is_open p m = Some (r, m) /\
             (r <> 0 <-> handle t <> -1)) /\
  (exists m' t',
     sys_socket_init_network_target p m = Some (tt, m') /\
     targets m' !! p = Some t' /\
     handle t' = -1 /\
     sys_socket_network_target_is_open p m' = Some (0, m')).
Proof.
  intros Ht. split.
  - exists (if handle t =? -1 then 0 else 1).
    split; [apply is_open_eq, Ht|].
    destruct (Z.eqb_spec (handle t) (-1)) as [Hh|Hh]; split; intros H; lia.
  - unfold sys_socket_init_network_target. call.
    erewrite config_init_mutex_eq by find_target. machine_simpl.
    eexists _, _. split; [reflexivity|].
    split; [machine_simpl; apply lookup_insert_eq|].
    split; [reflexivity|].
    erewrite is_open_eq by find_target. reflexivity.
Qed.

(** A target whose memory still holds an old handle and a spent mutex. *)
Lemma is_open_iff_handle_not_closed_witness :
  targets stale_machine !! 2%positive = Some stale_target /\
  (exists r, sys_socket_network_target_is_open 2%positive stale_machine
             = Some (r, stale_machine) /\
             (r <> 0 <-> handle stale_target <> -1)) /\
  (exists m' t',
     sys_socket_init_network_target 2%positive stale_machine = Some (tt, m') /\
     targets m' !! 2%positive = Some t' /\
     handle t' = -1 /\
     sys_socket_network_target_is_open 2%positive m' = Some (0, m')).
Proof.
  split; [reflexivity|].
  apply (is_open_iff_handle_not_closed 2%positive stale_target stale_machine).
  reflexivity.
Defined.

(** ** One handle per target *)

(** C2, as stated, fails on the open functions: [sys_socket_open_tcp4_target]
    on a target that holds descriptor 3 connects and stores the new
    descriptor 4 without a [close]; both descriptors are open afterwards. *)
Lemma open_leaves_prior_handle_open :
  sole_handle 1%positive already_open /\
  exists m',
    sys_socket_open_tcp4_target 1%positive already_open
    = Some (Some 1%positive, m') /\
    trace m' = [EvConnect "localhost" 514 AF_INET SOCK_STREAM 0 4] /\
    handle <$> targets m' !! 1%positive = Some 4 /\
    is_Some (fds m' !! 3) /\
    is_Some (fds m' !! 4) /\
    ~ sole_handle 1%positive m'.
Proof.
  split.
  - intros fd s Hfd. cbn in Hfd.
    apply lookup_singleton_Some in Hfd as [<- _].
    exists (example_target 3). split; [reflexivity|]. split; [reflexivity|lia].
  - eexists. split; [vm_compute; reflexivity|].
    split; [reflexivity|]. split; [reflexivity|].
    split; [eexists; reflexivity|]. split; [eexists; reflexivity|].
    intros Hsole.
    destruct (Hsole 3 (example_socket [] false []) eq_refl)
      as (t' & Ht' & Hh & _).
    vm_compute in Ht'. injection Ht' as <-. discriminate Hh.
Qed.

(** C2, amended. On a target that is ready, each of the four reopen
    functions closes the handle the target holds, if it holds one, before it
    connects, and a target that held the only descriptor of the process
    holds the only one afterwards. Each of the four open functions makes the
    connection attempt and nothing else, so it closes no handle; it keeps
    the target to one descriptor when the handle was the closed value -1
    before the call. *)
Theorem reopen_closes_before_connecting
    (p : target_ptr) (t : network_target) (m : machine) :
  targets m !! p = Some t ->
  mutex t = MutexUnlocked ->
  (forall op domain type, In (op, domain, type) reopen_variants ->
     exists m',
       op p m = Some (Some p, m') /\
       (handle t <> -1 ->
          exists fd,
            trace m' = trace m ++ [EvClose (handle t);
                                   EvConnect (destination t) (port t)
                                             domain type 0 fd]) /\
       (sole_handle p m -> sole_handle p m')) /\
  (forall op domain type, In (op, domain, type) open_variants ->
     exists fd r m',
       op p m = Some (r, m') /\
       trace m' = trace m ++ [EvConnect (destination t) (port t)
                                        domain type 0 fd] /\
       (handle t = -1 -> sole_handle p m -> sole_handle p m')).
Proof.
  intros Ht Hmu. split.
  - intros op domain type Hin. rewrite (reopen_variants_param _ _ _ Hin).
    destruct (decide (handle t = -1)) as [Hh|Hh].
    + exists m. split; [eapply reopen_target_closed; eassumption|].
      split; [intros Hne; contradiction|]. auto.
    + destruct (reopen_target_open domain type p t m Ht Hmu Hh)
        as (fd & m' & Hop & Htg & _ & Htr & Hfds).
      exists m'. split; [exact Hop|]. split; [eauto|].
      intros Hsole. eapply sole_handle_connected; [exact Htg|].
      rewrite (sole_handle_delete p t m Ht Hsole) in Hfds.
      destruct Hfds as [[Hfd Hfds]|(Hfd & _ & Hfds)]; auto.
  - intros op domain type Hin. rewrite (open_variants_param _ _ _ Hin).
    destruct (open_target_spec domain type p t m Ht Hmu)
      as (fd & m' & Hop & Htg & _ & Htr & Hfds).
    exists fd. eexists _, m'. split; [exact Hop|]. split; [exact Htr|].
    intros Hh Hsole. eapply sole_handle_connected; [exact Htg|].
    rewrite (sole_handle_closed p t m Ht Hh Hsole) in Hfds.
    destruct Hfds as [[Hfd Hfds]|(Hfd & _ & Hfds)]; auto.
Qed.

(** The target that holds descriptor 3. *)
Lemma reopen_closes_before_connecting_witness :
  targets already_open !! 1%positive = Some (example_target 3) /\
  mutex (example_target 3) = MutexUnlocked /\
  (forall op domain type, In (op, domain, type) reopen_variants ->
     exists m',
       op 1%positive already_open = Some (Some 1%positive, m') /\
       (handle (example_target 3) <> -1 ->
          exists fd,
            trace m' = trace already_open
                       ++ [EvClose (handle (example_target 3));
                           EvConnect (destination (example_target 3))
                                     (port (example_target 3))
                                     domain type 0 fd]) /\
       (sole_handle 1%positive already_open -> sole_handle 1%positive m')) /\
  (forall op domain type, In (op, domain, type) open_variants ->
     exists fd r m',
       op 1%positive already_open = Some (r, m') /\
       trace m' = trace already_open
                  ++ [EvConnect (destination (example_target 3))
                                (port (example_target 3)) domain type 0 fd] /\
       (handle (example_target 3) = -1 ->
        sole_handle 1%positive already_open -> sole_handle 1%positive m')).
Proof.
  split; [reflexivity|].
  split; [reflexivity|].
  apply (reopen_closes_before_connecting 1%positive (example_target 3)
           already_open); reflexivity.
Defined.

(** ** Receiving and sending *)

Lemma size_t_small z : 0 <= z <= SIZE_MAX -> size_t z = z.
Proof. intros H. unfold size_t, SIZE_MAX in *. apply Z.mod_small. lia. Qed.

Lemma size_t_range z : 0 <= size_t z <= SIZE_MAX.
Proof.
  unfold size_t, SIZE_MAX.
  pose proof (Z.mod_pos_bound z (2 ^ 64 - 1 + 1) ltac:(lia)). lia.
Qed.

Lemma recv_check_spec fd m :
  exists r m',
    recv fd 1 MSG_DONTWAIT m = Some (r, m') /\
    targets m' = targets m /\ errors m' = errors m /\
    connect_plan m' = connect_plan m /\
    trace m' = trace m ++ [EvRecv fd 1 MSG_DONTWAIT r] /\
    match fds m !! fd with
    | None => r = -1 /\ fds m' = fds m
    | Some s =>
      match inbound s with
      | [] => r = (if fin s then 0 else -1) /\ fds m' = fds m
      | b :: l => r = 1 /\ fds m' = <[fd := with_inbound l s]> (fds m)
      end
    end.
Proof.
  unfold recv. destruct (fds m !! fd) as [s|] eqn:Hfd.
  - destruct (inbound s) as [|b l] eqn:Hin.
    + destruct (fin s).
      * eexists _, _. split; [reflexivity|]. machine_simpl. auto 10.
      * change (has_flag MSG_DONTWAIT MSG_DONTWAIT) with true. cbv iota.
        eexists _, _. split; [reflexivity|]. machine_simpl. auto 10.
    + change (has_flag MSG_PEEK MSG_DONTWAIT) with false. cbv iota.
      assert (Hn : Z.min 1 (Z.of_nat (length (b :: l))) = 1)
        by (cbn [length]; lia).
      rewrite Hn. change (Z.to_nat 1) with 1%nat. cbn [drop].
      eexists _, _. split; [reflexivity|]. machine_simpl. auto 10.
  - eexists _, _. split; [reflexivity|]. machine_simpl. auto 10.
Qed.

Lemma send_spec fd buffer len flags m :
  exists r m',
    send fd buffer len flags m = Some (r, m') /\
    targets m' = targets m /\ errors m' = errors m /\
    connect_plan m' = connect_plan m /\
    trace m' = trace m ++ [EvSend fd len flags r] /\
    match fds m !! fd with
    | None => r = -1 /\ fds m' = fds m
    | Some s =>
      (0 <= len -> r = -1 \/ (0 <= r <= len /\ (1 <= len -> 1 <= r))) /\
      exists plan,
        fds m' = <[fd := with_sent (if r =? -1 then []
                                    else take (Z.to_nat r) buffer) plan s]>
                   (fds m)
    end.
Proof.
  unfold send. destruct (fds m !! fd) as [s|] eqn:Hfd.
  - destruct (send_plan s) as [|[k|e] plan] eqn:Hplan.
    + eexists _, _. split; [reflexivity|]. machine_simpl.
      repeat split; try reflexivity.
      * intros Hlen. right. lia.
      * exists []. destruct (Z.eqb_spec len (-1)) as [->|Hne]; reflexivity.
    + eexists _, _. split; [reflexivity|]. machine_simpl.
      repeat split; try reflexivity.
      * intros Hlen. right. lia.
      * exists plan.
        destruct (Z.eqb_spec (Z.min (Z.pos k) len) (-1)) as [He|Hne];
          [|reflexivity].
        rewrite He. reflexivity.
    + eexists _, _. split; [reflexivity|]. machine_simpl.
      repeat split; try reflexivity.
      * intros Hlen. left. reflexivity.
      * exists plan. reflexivity.
  - eexists _, _. split; [reflexivity|]. machine_simpl. auto 10.
Qed.

Lemma recv_check_socket fd m r m' :
  recv fd 1 MSG_DONTWAIT m = Some (r, m') ->
  dom (fds m') = dom (fds m) /\
  (fds m !! fd = None -> r = -1) /\
  (forall s, fds m !! fd = Some s ->
     r = match inbound s with
         | [] => if fin s then 0 else -1
         | _ :: _ => 1
         end /\
     exists s', fds m' !! fd = Some s' /\
                inbound s' = tail (inbound s) /\
                fin s' = fin s /\
                delivered s' = delivered s).
Proof.
  intros Hrecv.
  destruct (recv_check_spec fd m) as (r0 & m0 & Hspec & _ & _ & _ & _ & Hfds).
  rewrite Hrecv in Hspec. injection Hspec as <- <-.
  destruct (fds m !! fd) as [s|] eqn:Hfd.
  - destruct (inbound s) as [|b l] eqn:Hin.
    + destruct Hfds as [-> Hfds]. rewrite Hfds.
      split; [reflexivity|]. split; [discriminate|].
      intros s0 [= <-]. rewrite Hin. split; [reflexivity|].
      exists s. rewrite Hin. auto.
    + destruct Hfds as [-> Hfds]. rewrite Hfds.
      split; [apply dom_insert_lookup_L; eauto|]. split; [discriminate|].
      intros s0 [= <-]. rewrite Hin. split; [reflexivity|].
      eexists. rewrite lookup_insert_eq. split; [reflexivity|].
      cbn. auto.
  - destruct Hfds as [-> Hfds]. rewrite Hfds.
    split; [reflexivity|]. split; [reflexivity|]. discriminate.
Qed.

Lemma send_socket fd buffer len flags m r m' :
  send fd buffer len flags m = Some (r, m') ->
  dom (fds m') = dom (fds m) /\
  (fds m !! fd = None -> r = -1) /\
  (forall s, fds m !! fd = Some s ->
     (0 <= len -> r = -1 \/ (0 <= r <= len /\ (1 <= len -> 1 <= r))) /\
     exists s', fds m' !! fd = Some s' /\
                inbound s' = inbound s /\
                fin s' = fin s /\
                delivered s' = delivered s ++
                  (if r =? -1 then [] else take (Z.to_nat r) buffer)).
Proof.
  intros Hsend.
  destruct (send_spec fd buffer len flags m)
    as (r0 & m0 & Hspec & _ & _ & _ & _ & Hfds).
  rewrite Hsend in Hspec. injection Hspec as <- <-.
  destruct (fds m !! fd) as [s|] eqn:Hfd.
  - destruct Hfds as [Hrange [plan Hfds]]. rewrite Hfds.
    split; [apply dom_insert_lookup_L; eauto|]. split; [discriminate|].
    intros s0 [= <-]. split; [exact Hrange|].
    eexists. rewrite lookup_insert_eq. split; [reflexivity|].
    cbn. auto.
  - destruct Hfds as [-> Hfds]. rewrite Hfds.
    split; [reflexivity|]. split; [reflexivity|]. discriminate.
Qed.

(** ** One pass through the body of the loop *)

Ltac machine_simpl_all :=
  cbn [targets fds errno connect_plan trace errors
       set_targets set_fds set_errno set_connect_plan log report
       destination port handle mutex with_handle with_mutex] in *.

Lemma sendto_tcp_body_spec flag p tl msg msg_size sent m :
  targets m !! p = Some tl ->
  exists c m' rr,
    sendto_tcp_body flag p msg msg_size sent m = Some (c, m') /\
    connect_plan m' = connect_plan m /\
    (rr = 0 <->
     exists s, fds m !! handle tl = Some s /\ inbound s = [] /\ fin s = true) /\
    (forall s b l, fds m !! handle tl = Some s -> inbound s = b :: l -> rr = 1) /\
    ((rr = 0 /\ c = Break (-1) /\
      targets m' = <[p := with_handle (-1) tl]> (targets m) /\
      errors m' = errors m ++ [network_closed L10N_NETWORK_CLOSED_ERROR_MESSAGE] /\
      trace m' = trace m ++ [EvRecv (handle tl) 1 MSG_DONTWAIT 0;
                             EvClose (handle tl)] /\
      fds m' = delete (handle tl) (fds m))
     \/
     (rr <> 0 /\
      exists sr,
        trace m' = trace m ++ [EvRecv (handle tl) 1 MSG_DONTWAIT rr;
                               EvSend (handle tl) (size_t (msg_size - sent))
                                      flag sr] /\
        targets m' = targets m /\
        dom (fds m') = dom (fds m) /\
        (forall s, fds m !! handle tl = Some s ->
           exists s', fds m' !! handle tl = Some s' /\
                      inbound s' = tail (inbound s) /\
                      fin s' = fin s /\
                      delivered s' = delivered s ++
                        (if sr =? -1 then [] else take (Z.to_nat sr) msg)) /\
        ((sr = -1 /\ c = Break (-1) /\
          errors m' = errors m ++
            [socket_send_failure L10N_SEND_SYS_SOCKET_FAILED_ERROR_MESSAGE
                                 (errno m') L10N_ERRNO_ERROR_CODE_TYPE])
         \/
         (sr <> -1 /\ c = Continue (size_t (sent + sr)) /\
          errors m' = errors m /\
          0 <= sr <= size_t (msg_size - sent) /\
          (1 <= size_t (msg_size - sent) -> 1 <= sr) /\
          is_Some (fds m !! handle tl))))).
Proof.
  intros Ht. unfold sendto_tcp_body. call.
  destruct (recv_check_spec (handle tl) m)
    as (rr & m1 & Hrecv & Htg1 & Herr1 & Hcp1 & Htr1 & Hfds1).
  destruct (recv_check_socket _ _ _ _ Hrecv) as (Hdom1 & Hnone1 & Hsome1).
  call.
  assert (Hzero : rr = 0 <->
            exists s, fds m !! handle tl = Some s /\ inbound s = [] /\
                      fin s = true).
  { destruct (fds m !! handle tl) as [s|] eqn:Hfd.
    - destruct (Hsome1 s eq_refl) as [Hrr _]. split.
      + intros ->. exists s. split; [reflexivity|].
        destruct (inbound s); [|discriminate].
        destruct (fin s); [auto|discriminate].
      + intros (s0 & [= <-] & Hin & Hfin). rewrite Hin, Hfin in Hrr. exact Hrr.
    - split.
      + intros ->. specialize (Hnone1 eq_refl). discriminate.
      + intros (s0 & Hs0 & _). discriminate. }
  assert (Hone : forall s b l, fds m !! handle tl = Some s ->
                               inbound s = b :: l -> rr = 1).
  { intros s b l Hfd Hin. destruct (Hsome1 s Hfd) as [Hrr _].
    rewrite Hin in Hrr. exact Hrr. }
  destruct (Z.eqb_spec rr 0) as [Hrr|Hrr].
  - (* the peer has shut down *)
    subst rr. destruct Hzero as [Hzero _].
    destruct (Hzero eq_refl) as (s & Hfd & Hin & Hfin).
    rewrite Hfd, Hin, Hfin in Hfds1. destruct Hfds1 as [_ Hfds1].
    repeat call.
    destruct (close_spec (handle tl)
                (report (network_closed L10N_NETWORK_CLOSED_ERROR_MESSAGE) m1))
      as (r & m2 & Hcl & Htg2 & Herr2 & Hcp2 & Htr2 & Hfds2).
    machine_simpl_all. repeat call.
    eexists _, _, 0. split; [reflexivity|]. machine_simpl.
    split; [congruence|]. split; [tauto|]. split; [exact Hone|].
    left. rewrite Htg2, Htg1, Herr2, Herr1, Htr2, Htr1, Hfds2, Hfds1.
    rewrite <- app_assoc. auto 10.
  - (* the send *)
    call.
    destruct (send_spec (handle tl) msg (size_t (msg_size - sent)) flag m1)
      as (sr & m2 & Hsend & Htg2 & Herr2 & Hcp2 & Htr2 & _).
    destruct (send_socket _ _ _ _ _ _ _ Hsend) as (Hdom2 & Hnone2 & Hsome2).
    call.
    assert (Hsock : forall s, fds m !! handle tl = Some s ->
              exists s', fds m2 !! handle tl = Some s' /\
                         inbound s' = tail (inbound s) /\
                         fin s' = fin s /\
                         delivered s' = delivered s ++
                           (if sr =? -1 then []
                            else take (Z.to_nat sr) msg)).
    { intros s Hfd. destruct (Hsome1 s Hfd) as (_ & s1 & Hfd1 & Hin1 & Hfin1 & Hdel1).
      destruct (Hsome2 s1 Hfd1) as (_ & s2 & Hfd2 & Hin2 & Hfin2 & Hdel2).
      exists s2. split; [exact Hfd2|]. repeat split; congruence. }
    unfold unlikely. destruct (decide (sr = -1)) as [Hsr|Hsr].
    + rewrite (proj2 (Z.eqb_eq sr (-1)) Hsr). repeat call. eexists _, _, rr. split; [reflexivity|]. machine_simpl.
      split; [congruence|]. split; [exact Hzero|]. split; [exact Hone|].
      right. split; [exact Hrr|]. exists sr.
      rewrite Htr2, Htr1, Htg2, Htg1, Hdom2, Hdom1, Herr2, Herr1.
      rewrite <- app_assoc. auto 10.
    + rewrite (proj2 (Z.eqb_neq sr (-1)) Hsr). repeat call. eexists _, _, rr. split; [reflexivity|].
      split; [congruence|]. split; [exact Hzero|]. split; [exact Hone|].
      right. split; [exact Hrr|]. exists sr.
      rewrite Htr2, Htr1, Htg2, Htg1, Hdom2, Hdom1, Herr2, Herr1.
      rewrite <- app_assoc.
      repeat (split; [first [reflexivity | assumption]|]).
      right. split; [exact Hsr|]. split; [reflexivity|]. split; [reflexivity|].
      destruct (fds m1 !! handle tl) as [s1|] eqn:Hfd1.
      * destruct (Hsome2 s1 eq_refl) as (Hrange & _).
        destruct (Hrange (proj1 (size_t_range _))) as [Hbad|[Hr1 Hr2]];
          [contradiction|].
        split; [exact Hr1|]. split; [exact Hr2|].
        apply elem_of_dom. rewrite <- Hdom1. apply elem_of_dom. eauto.
      * specialize (Hnone2 eq_refl). contradiction.
Qed.

(** ** The loop and the whole TCP send *)

Lemma last_after_send (e1 e2 : event) evs :
  last ([e1; e2] ++ evs) = match last evs with
                           | Some e => Some e
                           | None => Some e2
                           end.
Proof. rewrite last_app. destruct (last evs); reflexivity. Qed.

Lemma sendto_tcp_loop_spec flag p tl msg msg_size :
  msg_size <= SIZE_MAX ->
  forall fuel sent m,
    targets m !! p = Some tl ->
    0 <= sent <= msg_size ->
    (Z.to_nat (msg_size - sent) < fuel)%nat ->
    exists r m' evs,
      sendto_tcp_loop flag fuel p msg msg_size sent 1 m = Some (r, m') /\
      trace m' = trace m ++ evs /\
      connect_plan m' = connect_plan m /\
      ((r = 1 /\ targets m' = targets m /\ errors m' = errors m /\
        dom (fds m') = dom (fds m) /\
        (forall fd len fl, last evs <> Some (EvSend fd len fl (-1))))
       \/
       (r = -1 /\ targets m' = targets m /\
        errors m' = errors m ++
          [socket_send_failure L10N_SEND_SYS_SOCKET_FAILED_ERROR_MESSAGE
                               (errno m') L10N_ERRNO_ERROR_CODE_TYPE] /\
        dom (fds m') = dom (fds m) /\
        exists len, last evs = Some (EvSend (handle tl) len flag (-1)))
       \/
       (r = -1 /\ targets m' = <[p := with_handle (-1) tl]> (targets m) /\
        errors m' = errors m ++
          [network_closed L10N_NETWORK_CLOSED_ERROR_MESSAGE] /\
        dom (fds m') = dom (fds m) ∖ {[handle tl]} /\
        last evs = Some (EvClose (handle tl)))).
Proof.
  intros Hmax fuel. induction fuel as [|fuel IH]; intros sent m Ht Hsent Hfuel.
  { lia. }
  cbn [sendto_tcp_loop]. destruct (Z.ltb_spec sent msg_size) as [Hlt|Hge].
  - destruct (sendto_tcp_body_spec flag p tl msg msg_size sent m Ht)
      as (c & m1 & rr & Hbody & Hcp1 & _ & _ & Hcases).
    rewrite (bind_Some _ _ _ _ _ Hbody).
    destruct Hcases as [(_ & -> & Htg1 & Herr1 & Htr1 & Hfds1)
                       |(_ & sr & Htr1 & Htg1 & Hdom1 & _ & Hsend)].
    + eexists _, _, _. split; [reflexivity|]. split; [exact Htr1|].
      split; [exact Hcp1|]. right. right.
      rewrite Hfds1, dom_delete_L. auto 10.
    + rewrite (size_t_small (msg_size - sent)) in * by lia.
      destruct Hsend as [(-> & -> & Herr1)
                        |(Hsr & -> & Herr1 & Hrange & Hpos & _)].
      * eexists _, _, _. split; [reflexivity|]. split; [exact Htr1|].
        split; [exact Hcp1|]. right. left.
        split; [reflexivity|]. split; [exact Htg1|]. split; [exact Herr1|].
        split; [exact Hdom1|]. eexists. reflexivity.
      * specialize (Hpos ltac:(lia)).
        rewrite (size_t_small (sent + sr)) by lia.
        destruct (IH (sent + sr) m1) as (r & m2 & evs & Hloop & Htr2 & Hcp2 & Hout).
        { rewrite Htg1. exact Ht. }
        { lia. }
        { lia. }
        exists r, m2, ([EvRecv (handle tl) 1 MSG_DONTWAIT rr;
                        EvSend (handle tl) (msg_size - sent) flag sr] ++ evs).
        split; [exact Hloop|].
        split; [rewrite Htr2, Htr1, <- app_assoc; reflexivity|].
        split; [congruence|].
        rewrite last_after_send.
        destruct Hout as [(-> & Htg2 & Herr2 & Hdom2 & Hlast)
                         |[(-> & Htg2 & Herr2 & Hdom2 & len & Hlast)
                          |(-> & Htg2 & Herr2 & Hdom2 & Hlast)]].
        -- left. split; [reflexivity|]. split; [congruence|].
           split; [congruence|]. split; [congruence|].
           intros fd len fl. destruct (last evs) as [e|] eqn:He.
           ++ apply Hlast.
           ++ intros [= _ _ _ Hbad]. contradiction.
        -- right. left. split; [reflexivity|]. split; [congruence|].
           split; [congruence|]. split; [congruence|].
           exists len. rewrite Hlast. reflexivity.
        -- right. right. split; [reflexivity|]. split; [congruence|].
           split; [congruence|]. split; [congruence|].
           rewrite Hlast. reflexivity.
  - exists 1, m, []. split; [reflexivity|].
    split; [rewrite app_nil_r; reflexivity|]. split; [reflexivity|].
    left. repeat split; try reflexivity. intros fd len fl. discriminate.
Qed.

Lemma unlock_after_lock t :
  mutex t = MutexUnlocked ->
  with_mutex MutexUnlocked (with_mutex MutexLocked t) = t.
Proof. intros Hmu. apply target_eq; cbn; congruence. Qed.

Lemma sendto_tcp_spec flag p t msg msg_size m :
  targets m !! p = Some t ->
  mutex t = MutexUnlocked ->
  0 <= msg_size <= SIZE_MAX ->
  exists r m' evs,
    sys_socket_sendto_tcp_target flag p msg msg_size m = Some (r, m') /\
    trace m' = trace m ++ evs /\
    connect_plan m' = connect_plan m /\
    ((r = 1 /\ targets m' = targets m /\ errors m' = errors m /\
      dom (fds m') = dom (fds m) /\
      (forall fd len fl, last evs <> Some (EvSend fd len fl (-1))))
     \/
     (r = -1 /\ targets m' = targets m /\
      errors m' = errors m ++
        [socket_send_failure L10N_SEND_SYS_SOCKET_FAILED_ERROR_MESSAGE
                             (errno m') L10N_ERRNO_ERROR_CODE_TYPE] /\
      dom (fds m') = dom (fds m) /\
      exists len, last evs = Some (EvSend (handle t) len flag (-1)))
     \/
     (r = -1 /\ targets m' = <[p := with_handle (-1) t]> (targets m) /\
      errors m' = errors m ++
        [network_closed L10N_NETWORK_CLOSED_ERROR_MESSAGE] /\
      dom (fds m') = dom (fds m) ∖ {[handle t]} /\
      last evs = Some (EvClose (handle t)))).
Proof.
  intros Ht Hmu Hsize. unfold sys_socket_sendto_tcp_target. cbv zeta. call.
  destruct (sendto_tcp_loop_spec flag p (with_mutex MutexLocked t) msg msg_size
              (proj2 Hsize) (S (Z.to_nat msg_size)) 0
              (set_targets <[p:=with_mutex MutexLocked t]> m))
    as (r & m1 & evs & Hloop & Htr & Hcp & Hout).
  { machine_simpl. apply lookup_insert_eq. }
  { lia. }
  { rewrite Z.sub_0_r. lia. }
  machine_simpl_all. rewrite (bind_Some _ _ _ _ _ Hloop).
  destruct Hout as [(-> & Htg & Herr & Hdom & Hlast)
                   |[(-> & Htg & Herr & Hdom & len & Hlast)
                    |(-> & Htg & Herr & Hdom & Hlast)]].
  - repeat call. eexists _, _, evs. split; [reflexivity|]. machine_simpl.
    split; [exact Htr|]. split; [exact Hcp|]. left.
    rewrite Htg, !insert_insert_eq, unlock_after_lock by assumption.
    rewrite (insert_id _ _ _ Ht). auto.
  - repeat call. eexists _, _, evs. split; [reflexivity|]. machine_simpl.
    split; [exact Htr|]. split; [exact Hcp|]. right. left.
    rewrite Htg, !insert_insert_eq, unlock_after_lock by assumption.
    rewrite (insert_id _ _ _ Ht). eauto 10.
  - repeat call. eexists _, _, evs. split; [reflexivity|]. machine_simpl.
    split; [exact Htr|]. split; [exact Hcp|]. right. right.
    rewrite Htg, !insert_insert_eq, relock_eq by assumption. auto.
Qed.

(** ** The UDP send *)

Lemma sendto_udp_spec flag p t msg msg_size m :
  targets m !! p = Some t ->
  mutex t = MutexUnlocked ->
  exists sr m',
    sys_socket_sendto_udp_target flag p msg msg_size m
    = Some (if sr =? -1 then -1 else 1, m') /\
    trace m' = trace m ++ [EvSend (handle t) msg_size flag sr] /\
    targets m' = targets m /\
    dom (fds m') = dom (fds m) /\
    errors m' = errors m ++
      (if sr =? -1
       then [socket_send_failure L10N_SEND_SYS_SOCKET_FAILED_ERROR_MESSAGE
                                 (errno m') L10N_ERRNO_ERROR_CODE_TYPE]
       else []).
Proof.
  intros Ht Hmu. unfold sys_socket_sendto_udp_target. repeat call.
  destruct (send_spec (handle t) msg msg_size flag
              (set_targets <[p:=with_mutex MutexLocked t]> m))
    as (sr & m1 & Hsend & Htg & Herr & _ & Htr & _).
  destruct (send_socket _ _ _ _ _ _ _ Hsend) as (Hdom & _).
  machine_simpl_all. call. exists sr. unfold unlikely.
  destruct (sr =? -1).
  - repeat call. eexists. split; [reflexivity|]. machine_simpl.
    rewrite Htg, !insert_insert_eq, unlock_after_lock by assumption.
    rewrite (insert_id _ _ _ Ht), Herr. auto.
  - repeat call. eexists. split; [reflexivity|]. machine_simpl.
    rewrite Htg, !insert_insert_eq, unlock_after_lock by assumption.
    rewrite (insert_id _ _ _ Ht), Herr, app_nil_r. auto.
Qed.

(** C10. On a target that is ready, [sys_socket_sendto_udp_target] makes
    exactly one call into the environment, a [send] of [msg_size] bytes on
    the handle of the target, and returns 1 whenever that [send] returns
    anything but -1: the number of bytes taken is never compared with
    [msg_size]. *)
Theorem sendto_udp_single_attempt
    (flag : Z) (p : target_ptr) (t : network_target) (msg : list byte)
    (msg_size : Z) (m : machine) :
  targets m !! p = Some t ->
  mutex t = MutexUnlocked ->
  exists sr r m',
    sys_socket_sendto_udp_target flag p msg msg_size m = Some (r, m') /\
    trace m' = trace m ++ [EvSend (handle t) msg_size flag sr] /\
    (sr <> -1 -> r = 1).
Proof.
  intros Ht Hmu.
  destruct (sendto_udp_spec flag p t msg msg_size m Ht Hmu)
    as (sr & m' & Hudp & Htr & _).
  exists sr, (if sr =? -1 then -1 else 1), m'.
  split; [exact Hudp|]. split; [exact Htr|].
  intros Hsr. rewrite (proj2 (Z.eqb_neq sr (-1)) Hsr). reflexivity.
Qed.

(** Two bytes offered to a peer that takes one. *)
Lemma sendto_udp_single_attempt_witness :
  targets one_byte_first !! 1%positive = Some (example_target 3) /\
  mutex (example_target 3) = MutexUnlocked /\
  exists sr r m',
    sys_socket_sendto_udp_target 0 1%positive ["a"%byte; "b"%byte] 2
                                 one_byte_first = Some (r, m') /\
    trace m' = trace one_byte_first
               ++ [EvSend (handle (example_target 3)) 2 0 sr] /\
    (sr <> -1 -> r = 1).
Proof.
  split; [reflexivity|].
  split; [reflexivity|].
  apply (sendto_udp_single_attempt 0 1%positive (example_target 3)
           ["a"%byte; "b"%byte] 2 one_byte_first); reflexivity.
Defined.

(** The same call, run: one of the two bytes is taken and the call
    succeeds. *)
Example sendto_udp_short_send :
  exists m',
    sys_socket_sendto_udp_target 0 1%positive ["a"%byte; "b"%byte] 2
                                 one_byte_first = Some (1, m') /\
    trace m' = [EvSend 3 2 0 1] /\
    delivered <$> fds m' !! 3 = Some ["a"%byte].
Proof. eexists. split; [vm_compute; reflexivity|]. split; reflexivity. Qed.

(** ** Failing sends *)










(** The same two calls, run: each reports [EPIPE] and leaves handle 3. *)
Example send_failure_broken_pipe :
  (exists m',
     sys_socket_sendto_tcp_target 0 1%positive ["a"%byte; "b"%byte] 2
                                  broken_pipe = Some (-1, m') /\
     trace m' = [EvRecv 3 1 MSG_DONTWAIT (-1); EvSend 3 2 0 (-1)] /\
     errors m' = [socket_send_failure L10N_SEND_SYS_SOCKET_FAILED_ERROR_MESSAGE
                                      EPIPE L10N_ERRNO_ERROR_CODE_TYPE] /\
     targets m' !! 1%positive = Some (example_target 3) /\
     is_Some (fds m' !! 3)) /\
  (exists m',
     sys_socket_sendto_udp_target 0 1%positive ["a"%byte; "b"%byte] 2
                                  broken_pipe = Some (-1, m') /\
     trace m' = [EvSend 3 2 0 (-1)] /\
     errors m' = [socket_send_failure L10N_SEND_SYS_SOCKET_FAILED_ERROR_MESSAGE
                                      EPIPE L10N_ERRNO_ERROR_CODE_TYPE] /\
     targets m' !! 1%positive = Some (example_target 3) /\
     is_Some (fds m' !! 3)).
Proof.
  split.
  - eexists. split; [vm_compute; reflexivity|].
    repeat (split; [reflexivity|]). eexists. reflexivity.
  - eexists. split; [vm_compute; reflexivity|].
    repeat (split; [reflexivity|]). eexists. reflexivity.
Qed.

(** ** The check for a peer that has shut down *)

(** C3, as stated, fails: the check is a [recv] with [MSG_DONTWAIT] alone,
    not a peek. With one byte waiting, a send of one byte succeeds and the
    waiting byte is gone from the stream afterwards. *)
Lemma peer_check_takes_waiting_byte :
  inbound <$> fds pending_data !! 3 = Some ["A"%byte] /\
  has_flag MSG_PEEK MSG_DONTWAIT = false /\
  exists m',
    sys_socket_sendto_tcp_target 0 1%positive ["a"%byte] 1 pending_data
    = Some (1, m') /\
    trace m' = [EvRecv 3 1 MSG_DONTWAIT 1; EvSend 3 1 0 1] /\
    inbound <$> fds m' !! 3 = Some [].
Proof.
  split; [reflexivity|]. split; [reflexivity|].
  eexists. split; [vm_compute; reflexivity|]. split; reflexivity.
Qed.

(** C3, amended. Every pass through the body of the loop, on a target whose
    handle is an open descriptor, returns, and starts with a [recv] of one
    byte under [MSG_DONTWAIT], which sets the non-blocking flag and not the
    peek flag. The [recv] returns 0 exactly when no byte is waiting and the
    peer has shut down, and then the pass breaks out of the loop with the
    descriptor closed. When bytes are waiting the [recv] returns 1 and the
    first of them is removed from the stream. *)
Theorem peer_check_reads_one_byte
    (flag : Z) (p : target_ptr) (t : network_target) (s : socket)
    (msg : list byte) (msg_size sent_bytes : Z) (m : machine) :
  targets m !! p = Some t ->
  fds m !! handle t = Some s ->
  has_flag MSG_DONTWAIT MSG_DONTWAIT = true /\
  has_flag MSG_PEEK MSG_DONTWAIT = false /\
  exists c m' rr evs,
    sendto_tcp_body flag p msg msg_size sent_bytes m = Some (c, m') /\
    trace m' = trace m ++ EvRecv (handle t) 1 MSG_DONTWAIT rr :: evs /\
    (rr = 0 <-> inbound s = [] /\ fin s = true) /\
    (rr = 0 -> c = Break (-1) /\ fds m' !! handle t = None) /\
    (forall b l, inbound s = b :: l ->
       rr = 1 /\
       exists s', fds m' !! handle t = Some s' /\ inbound s' = l).
Proof.
  intros Ht Hfd. split; [reflexivity|]. split; [reflexivity|].
  destruct (sendto_tcp_body_spec flag p t msg msg_size sent_bytes m Ht)
    as (c & m' & rr & Hbody & _ & Hzero & Hone & Hcases).
  assert (Hzero' : rr = 0 <-> inbound s = [] /\ fin s = true).
  { rewrite Hzero. split.
    - intros (s0 & Hs0 & Hin & Hfin). rewrite Hfd in Hs0.
      injection Hs0 as <-. auto.
    - intros [Hin Hfin]. eauto. }
  destruct Hcases as [(Hrr & -> & _ & _ & Htr & Hfds)
                     |(Hrr & sr & Htr & _ & _ & Hsock & _)].
  - exists (Break (-1)), m', rr, [EvClose (handle t)].
    split; [exact Hbody|]. split; [rewrite Htr, Hrr; reflexivity|].
    split; [exact Hzero'|].
    split; [intros _; rewrite Hfds, lookup_delete_eq; auto|].
    intros b l Hin. destruct Hzero' as [Hz _].
    destruct (Hz Hrr) as [Hnil _]. congruence.
  - exists c, m', rr, [EvSend (handle t) (size_t (msg_size - sent_bytes)) flag sr].
    split; [exact Hbody|]. split; [exact Htr|]. split; [exact Hzero'|].
    split; [intros Hz; contradiction|].
    intros b l Hin. split; [eapply Hone; eassumption|].
    destruct (Hsock s Hfd) as (s' & Hfd' & Hin' & _).
    exists s'. split; [exact Hfd'|]. rewrite Hin', Hin. reflexivity.
Qed.

(** One waiting byte, at the first pass of a send of one byte. *)
Lemma peer_check_reads_one_byte_witness :
  targets pending_data !! 1%positive = Some (example_target 3) /\
  fds pending_data !! handle (example_target 3)
  = Some (example_socket ["A"%byte] false []) /\
  has_flag MSG_DONTWAIT MSG_DONTWAIT = true /\
  has_flag MSG_PEEK MSG_DONTWAIT = false /\
  exists c m' rr evs,
    sendto_tcp_body 0 1%positive ["a"%byte] 1 0 pending_data = Some (c, m') /\
    trace m' = trace pending_data
               ++ EvRecv (handle (example_target 3)) 1 MSG_DONTWAIT rr :: evs /\
    (rr = 0 <-> inbound (example_socket ["A"%byte] false []) = [] /\
                fin (example_socket ["A"%byte] false []) = true) /\
    (rr = 0 -> c = Break (-1) /\
               fds m' !! handle (example_target 3) = None) /\
    (forall b l, inbound (example_socket ["A"%byte] false []) = b :: l ->
       rr = 1 /\
       exists s', fds m' !! handle (example_target 3) = Some s' /\
                  inbound s' = l).
Proof.
  split; [reflexivity|]. split; [reflexivity|].
  apply (peer_check_reads_one_byte 0 1%positive (example_target 3)
           (example_socket ["A"%byte] false []) ["a"%byte] 1 0 pending_data);
    reflexivity.
Defined.

(** What [MSG_DONTWAIT] is for: with a silent peer the same [recv] without
    the flag does not return, and with it the call fails at once. *)
Example recv_from_quiet_peer :
  recv 3 1 0 quiet_peer = None /\
  exists m', recv 3 1 MSG_DONTWAIT quiet_peer = Some (-1, m') /\
             errno m' = EAGAIN.
Proof. split; [reflexivity|]. eexists. split; reflexivity. Qed.

(** ** A peer that has shut down *)

(** C4, as stated, fails: a peer that sent one byte and then shut down is
    not noticed by a send of one byte. The check reads the waiting byte, the
    send succeeds, the call returns 1 and the target is still open. *)
Lemma sendto_tcp_misses_shutdown_behind_data :
  fin <$> fds shutdown_after_data !! 3 = Some true /\
  exists m',
    sys_socket_sendto_tcp_target 0 1%positive ["a"%byte] 1 shutdown_after_data
    = Some (1, m') /\
    handle <$> targets m' !! 1%positive = Some 3 /\
    is_Some (fds m' !! 3) /\
    sys_socket_network_target_is_open 1%positive m' = Some (1, m').
Proof.
  split; [reflexivity|].
  eexists. split; [vm_compute; reflexivity|].
  split; [reflexivity|]. split; [eexists; reflexivity|]. reflexivity.
Qed.

(** C4, amended. On a target that is ready and whose handle is an open
    descriptor, when the peer has shut down and no byte of it is waiting to
    be read, [sys_socket_sendto_tcp_target] with at least one byte to send
    returns -1 after a [recv] that returned 0 and a [close] of the handle;
    it reports the closed connection, the descriptor is gone, the handle of
    the target is -1, and [is_open] answers 0 afterwards. *)
Theorem sendto_tcp_reports_shutdown
    (flag : Z) (p : target_ptr) (t : network_target) (s : socket)
    (msg : list byte) (msg_size : Z) (m : machine) :
  targets m !! p = Some t ->
  mutex t = MutexUnlocked ->
  fds m !! handle t = Some s ->
  inbound s = [] ->
  fin s = true ->
  0 < msg_size ->
  exists m' t',
    sys_socket_sendto_tcp_target flag p msg msg_size m = Some (-1, m') /\
    trace m' = trace m ++ [EvRecv (handle t) 1 MSG_DONTWAIT 0;
                           EvClose (handle t)] /\
    errors m' = errors m ++ [network_closed L10N_NETWORK_CLOSED_ERROR_MESSAGE] /\
    fds m' = delete (handle t) (fds m) /\
    targets m' !! p = Some t' /\
    handle t' = -1 /\
    sys_socket_network_target_is_open p m' = Some (0, m').
Proof.
  intros Ht Hmu Hfd Hin Hfin Hsize.
  unfold sys_socket_sendto_tcp_target. cbv zeta. call.
  cbn [sendto_tcp_loop]. rewrite (proj2 (Z.ltb_lt 0 msg_size) Hsize).
  rewrite bind_assoc.
  destruct (sendto_tcp_body_spec flag p (with_mutex MutexLocked t) msg
              msg_size 0 (set_targets <[p:=with_mutex MutexLocked t]> m))
    as (c & m1 & rr & Hbody & _ & Hzero & _ & Hcases).
  { machine_simpl. apply lookup_insert_eq. }
  machine_simpl_all.
  assert (Hrr : rr = 0) by (apply Hzero; eauto).
  destruct Hcases as [(_ & -> & Htg & Herr & Htr & Hfds)|(Hne & _)];
    [|contradiction].
  rewrite (bind_Some _ _ _ _ _ Hbody). repeat call.
  eexists _, _. split; [reflexivity|]. machine_simpl.
  split; [exact Htr|]. split; [exact Herr|]. split; [exact Hfds|].
  split; [apply lookup_insert_eq|]. split; [reflexivity|].
  erewrite is_open_eq by (machine_simpl; apply lookup_insert_eq).
  reflexivity.
Qed.

(** A peer that shut down without a word, and two bytes to send. *)
Lemma sendto_tcp_reports_shutdown_witness :
  targets peer_gone !! 1%positive = Some (example_target 3) /\
  mutex (example_target 3) = MutexUnlocked /\
  fds peer_gone !! handle (example_target 3)
  = Some (example_socket [] true []) /\
  inbound (example_socket [] true []) = [] /\
  fin (example_socket [] true []) = true /\
  0 < 2 /\
  exists m' t',
    sys_socket_sendto_tcp_target 0 1%positive ["a"%byte; "b"%byte] 2 peer_gone
    = Some (-1, m') /\
    trace m' = trace peer_gone
               ++ [EvRecv (handle (example_target 3)) 1 MSG_DONTWAIT 0;
                   EvClose (handle (example_target 3))] /\
    errors m' = errors peer_gone
                ++ [network_closed L10N_NETWORK_CLOSED_ERROR_MESSAGE] /\
    fds m' = delete (handle (example_target 3)) (fds peer_gone) /\
    targets m' !! 1%positive = Some t' /\
    handle t' = -1 /\
    sys_socket_network_target_is_open 1%positive m' = Some (0, m').
Proof.
  split; [reflexivity|]. split; [reflexivity|]. split; [reflexivity|].
  split; [reflexivity|]. split; [reflexivity|]. split; [lia|].
  apply (sendto_tcp_reports_shutdown 0 1%positive (example_target 3)
           (example_socket [] true []) ["a"%byte; "b"%byte] 2 peer_gone);
    first [reflexivity | lia].
Defined.

(** ** Partial sends *)

(** C1, at an input where the code departs from it. A message of the two
    bytes "ab" goes to a peer that takes one byte for the first [send]. The
    call returns 1, and the second [send] is made for the one byte that
    remains, but from the start of the message: the peer receives "aa". *)
Theorem sendto_tcp_resends_from_start :
  exists m',
    sys_socket_sendto_tcp_target 0 1%positive ["a"%byte; "b"%byte] 2
                                 one_byte_first = Some (1, m') /\
    trace m' = [EvRecv 3 1 MSG_DONTWAIT (-1); EvSend 3 2 0 1;
                EvRecv 3 1 MSG_DONTWAIT (-1); EvSend 3 1 0 1] /\
    delivered <$> fds m' !! 3 = Some ["a"%byte; "a"%byte] /\
    delivered <$> fds m' !! 3 <> Some ["a"%byte; "b"%byte].
Proof.
  eexists. split; [vm_compute; reflexivity|].
  split; [reflexivity|]. split; [reflexivity|]. discriminate.
Qed.

(** Where the bytes of a pass come from: whatever [sent_bytes] is, a pass
    that reaches the end of the body has appended a prefix of the whole
    message to the stream, since [send] is handed [msg] and not
    [msg + sent_bytes]. *)
Lemma sendto_tcp_body_sends_prefix flag p t s msg msg_size sent_bytes m
    sent_bytes' m' :
  targets m !! p = Some t ->
  fds m !! handle t = Some s ->
  sendto_tcp_body flag p msg msg_size sent_bytes m
  = Some (Continue sent_bytes', m') ->
  exists s' n,
    fds m' !! handle t = Some s' /\
    delivered s' = delivered s ++ take n msg.
Proof.
  intros Ht Hfd Hrun.
  destruct (sendto_tcp_body_spec flag p t msg msg_size sent_bytes m Ht)
    as (c & m1 & rr & Hbody & _ & _ & _ & Hcases).
  rewrite Hrun in Hbody. injection Hbody as <- <-.
  destruct Hcases as [(_ & Hc & _)|(_ & sr & _ & _ & _ & Hsock & Hsend)];
    [discriminate|].
  destruct Hsend as [(_ & Hc & _)|(Hsr & _)]; [discriminate|].
  destruct (Hsock s Hfd) as (s' & Hfd' & _ & _ & Hdel).
  rewrite (proj2 (Z.eqb_neq sr (-1)) Hsr) in Hdel. eauto.
Qed.

(** How many bytes a successful send hands over: exactly [msg_size], also
    when the bytes are not the ones of the message. *)
Lemma sendto_tcp_loop_byte_count flag p tl msg msg_size :
  msg_size <= SIZE_MAX ->
  Z.of_nat (length msg) = msg_size ->
  forall fuel sent m s m',
    targets m !! p = Some tl ->
    fds m !! handle tl = Some s ->
    0 <= sent <= msg_size ->
    sendto_tcp_loop flag fuel p msg msg_size sent 1 m = Some (1, m') ->
    exists s',
      fds m' !! handle tl = Some s' /\
      Z.of_nat (length (delivered s'))
      = Z.of_nat (length (delivered s)) + (msg_size - sent).
Proof.
  intros Hmax Hlen fuel.
  induction fuel as [|fuel IH]; intros sent m s m' Ht Hfd Hsent Hrun.
  { discriminate. }
  cbn [sendto_tcp_loop] in Hrun.
  destruct (Z.ltb_spec sent msg_size) as [Hlt|Hge].
  - destruct (sendto_tcp_body_spec flag p tl msg msg_size sent m Ht)
      as (c & m1 & rr & Hbody & _ & _ & _ & Hcases).
    rewrite (bind_Some _ _ _ _ _ Hbody) in Hrun.
    destruct Hcases as [(_ & -> & _)
                       |(_ & sr & _ & Htg1 & _ & Hsock & Hsend)].
    { discriminate. }
    rewrite (size_t_small (msg_size - sent)) in Hsend by lia.
    destruct Hsend as [(_ & -> & _)|(Hsr & -> & _ & Hrange & _)].
    { discriminate. }
    rewrite (size_t_small (sent + sr)) in Hrun by lia.
    destruct (Hsock s Hfd) as (s1 & Hfd1 & _ & _ & Hdel1).
    rewrite (proj2 (Z.eqb_neq sr (-1)) Hsr) in Hdel1.
    destruct (IH (sent + sr) m1 s1 m') as (s' & Hfd' & Hcount);
      [rewrite Htg1; exact Ht | exact Hfd1 | lia | exact Hrun |].
    exists s'. split; [exact Hfd'|].
    rewrite Hcount, Hdel1, length_app, length_take. lia.
  - injection Hrun as <-. exists s. split; [exact Hfd|]. lia.
Qed.

(** X6. When [sys_socket_sendto_tcp_target] returns 1 for a message of
    [msg_size] bytes on an open descriptor, the stream handed to the kernel
    has grown by exactly [msg_size] bytes, however many passes the loop
    made. *)
Lemma sendto_tcp_success_byte_count flag p t s msg m m' :
  targets m !! p = Some t ->
  mutex t = MutexUnlocked ->
  fds m !! handle t = Some s ->
  Z.of_nat (length msg) <= SIZE_MAX ->
  sys_socket_sendto_tcp_target flag p msg (Z.of_nat (length msg)) m
  = Some (1, m') ->
  exists s',
    fds m' !! handle t = Some s' /\
    length (delivered s') = (length (delivered s) + length msg)%nat.
Proof.
  intros Ht Hmu Hfd Hmax Hrun.
  unfold sys_socket_sendto_tcp_target in Hrun. cbv zeta in Hrun.
  erewrite bind_Some in Hrun
    by (eapply lock_network_target_eq; eassumption).
  apply bind_inv in Hrun as (r & m1 & Hloop & Hrest).
  assert (Htl : targets (set_targets <[p:=with_mutex MutexLocked t]> m) !! p
                = Some (with_mutex MutexLocked t))
    by (machine_simpl; apply lookup_insert_eq).
  destruct (sendto_tcp_loop_spec flag p (with_mutex MutexLocked t) msg
              (Z.of_nat (length msg)) Hmax (S (Z.to_nat (Z.of_nat (length msg))))
              0 _ Htl ltac:(lia) ltac:(lia))
    as (r0 & m0 & evs & Hloop0 & _ & _ & Hout).
  rewrite Hloop in Hloop0. injection Hloop0 as <- <-.
  assert (Hr : r = 1 /\ fds m' = fds m1).
  { destruct Hout as [(-> & Htg & _)|[(-> & Htg & _)|(-> & Htg & _)]].
    - erewrite bind_Some in Hrest
        by (eapply unlock_network_target_eq;
            [rewrite Htg; exact Htl | reflexivity]).
      injection Hrest as <-. auto.
    - erewrite bind_Some in Hrest
        by (eapply unlock_network_target_eq;
            [rewrite Htg; exact Htl | reflexivity]).
      discriminate.
    - erewrite bind_Some in Hrest
        by (eapply unlock_network_target_eq;
            [rewrite Htg; machine_simpl; apply lookup_insert_eq | reflexivity]).
      discriminate. }
  destruct Hr as [-> Hfds].
  destruct (sendto_tcp_loop_byte_count flag p (with_mutex MutexLocked t) msg
              (Z.of_nat (length msg)) Hmax eq_refl _ 0 _ s m1 Htl Hfd
              ltac:(lia) Hloop)
    as (s' & Hfd' & Hcount).
  exists s'. split; [rewrite Hfds; exact Hfd'|]. lia.
Qed.

(** ** Closing a target for good *)

Lemma config_destroy_mutex_eq p t m :
  targets m !! p = Some t ->
  mutex t = MutexUnlocked ->
  config_destroy_mutex p m
  = Some (tt, set_targets (insert p (with_mutex MutexDestroyed t)) m).
Proof.
  intros Ht Hmu. unfold config_destroy_mutex.
  rewrite (bind_Some _ _ _ _ _ (load_eq p t m Ht)), Hmu.
  apply store_eq with (t := t). exact Ht.
Qed.

Lemma close_network_target_spec p t m :
  targets m !! p = Some t ->
  mutex t = MutexUnlocked ->
  exists m',
    sys_socket_close_network_target p m = Some (tt, m') /\
    trace m' = trace m ++ (if handle t =? -1 then [] else [EvClose (handle t)]) /\
    fds m' = (if handle t =? -1 then fds m else delete (handle t) (fds m)) /\
    errors m' = errors m /\
    targets m' = <[p := with_mutex MutexDestroyed t]> (targets m).
Proof.
  intros Ht Hmu. unfold sys_socket_close_network_target. call.
  destruct (Z.eqb_spec (handle t) (-1)) as [Hh|Hh].
  - call. erewrite config_destroy_mutex_eq by eassumption.
    eexists. split; [reflexivity|]. machine_simpl.
    rewrite app_nil_r. auto.
  - call. call.
    destruct (close_spec (handle t) m)
      as (r & m1 & Hcl & Htg & Herr & _ & Htr & Hfds).
    call.
    erewrite config_destroy_mutex_eq
      by (first [rewrite Htg; eassumption | eassumption]).
    eexists. split; [reflexivity|]. machine_simpl.
    rewrite Htg, Htr, Hfds, Herr. auto.
Qed.

(** X1. On a target that is ready, [sys_socket_close_network_target] calls
    [close] on the handle exactly when the handle is not -1, which removes
    that descriptor, and makes no call into the environment otherwise. In
    both cases it destroys the mutex and leaves the handle field as it was:
    the handle is not set back to -1, so [is_open] still answers 1 for a
    target that was open. *)
Theorem close_network_target_keeps_handle_field
    (p : target_ptr) (t : network_target) (m : machine) :
  targets m !! p = Some t ->
  mutex t = MutexUnlocked ->
  exists m',
    sys_socket_close_network_target p m = Some (tt, m') /\
    trace m' = trace m ++ (if handle t =? -1 then [] else [EvClose (handle t)]) /\
    fds m' = (if handle t =? -1 then fds m else delete (handle t) (fds m)) /\
    errors m' = errors m /\
    targets m' = <[p := with_mutex MutexDestroyed t]> (targets m) /\
    sys_socket_network_target_is_open p m'
    = Some (if handle t =? -1 then 0 else 1, m').
Proof.
  intros Ht Hmu.
  destruct (close_network_target_spec p t m Ht Hmu)
    as (m' & Hclose & Htr & Hfds & Herr & Htg).
  exists m'. repeat (split; [assumption|]).
  erewrite is_open_eq by (rewrite Htg; apply lookup_insert_eq).
  reflexivity.
Qed.

(** An open target: descriptor 3 is closed, the handle field still reads 3. *)
Lemma close_network_target_keeps_handle_field_witness :
  targets quiet_peer !! 1%positive = Some (example_target 3) /\
  mutex (example_target 3) = MutexUnlocked /\
  exists m',
    sys_socket_close_network_target 1%positive quiet_peer = Some (tt, m') /\
    trace m' = trace quiet_peer
               ++ (if handle (example_target 3) =? -1 then []
                   else [EvClose (handle (example_target 3))]) /\
    fds m' = (if handle (example_target 3) =? -1 then fds quiet_peer
              else delete (handle (example_target 3)) (fds quiet_peer)) /\
    errors m' = errors quiet_peer /\
    targets m' = <[1%positive := with_mutex MutexDestroyed (example_target 3)]>
                   (targets quiet_peer) /\
    sys_socket_network_target_is_open 1%positive m'
    = Some (if handle (example_target 3) =? -1 then 0 else 1, m').
Proof.
  split; [reflexivity|]. split; [reflexivity|].
  apply (close_network_target_keeps_handle_field 1%positive (example_target 3)
           quiet_peer); reflexivity.
Defined.

(** ** From [init] to [close] *)

Lemma init_network_target_spec p t m :
  targets m !! p = Some t ->
  exists m0,
    sys_socket_init_network_target p m = Some (tt, m0) /\
    targets m0
    = <[p := with_mutex MutexUnlocked (with_handle (-1) t)]> (targets m) /\
    fds m0 = fds m /\ trace m0 = trace m /\ errors m0 = errors m /\
    connect_plan m0 = connect_plan m.
Proof.
  intros Ht. unfold sys_socket_init_network_target. call.
  erewrite config_init_mutex_eq by find_target.
  eexists. split; [reflexivity|]. machine_simpl.
  rewrite insert_insert_eq. auto 10.
Qed.

(** X2. Whatever the memory of a target and the descriptor table hold,
    [init] followed by any of the four open functions leaves [is_open] in
    step with the value the open function returned: a returned target
    answers 1, a null pointer answers 0. When the process held no descriptor
    before, the target holds the only one afterwards. *)
Theorem init_open_is_open
    (op : target_ptr -> M (option target_ptr)) (domain type : Z)
    (p : target_ptr) (t : network_target) (m : machine) :
  In (op, domain, type) open_variants ->
  targets m !! p = Some t ->
  exists r o m',
    (let! _ := sys_socket_init_network_target p in
     let! r := op p in
     let! o := sys_socket_network_target_is_open p in
     ret (r, o)) m = Some ((r, o), m') /\
    ((r = Some p /\ o = 1) \/ (r = NULL /\ o = 0)) /\
    (fds m = ∅ -> sole_handle p m').
Proof.
  intros Hin Ht.
  destruct (init_network_target_spec p t m Ht)
    as (m0 & Hinit & Htg0 & Hfds0 & _).
  rewrite (bind_Some _ _ _ _ _ Hinit).
  destruct (open_target_spec domain type p
              (with_mutex MutexUnlocked (with_handle (-1) t)) m0)
    as (fd & m1 & Hop & Htg1 & _ & _ & Hfds1);
    [rewrite Htg0; apply lookup_insert_eq | reflexivity |].
  rewrite <- (open_variants_param _ _ _ Hin) in Hop.
  rewrite (bind_Some _ _ _ _ _ Hop).
  erewrite bind_Some
    by (eapply is_open_eq; rewrite Htg1; apply lookup_insert_eq).
  cbn [handle with_handle]. eexists _, _, m1. split; [reflexivity|].
  split.
  - case_bool_decide as Hfd.
    + right. rewrite (proj2 (Z.eqb_eq fd (-1)) Hfd). auto.
    + left. rewrite (proj2 (Z.eqb_neq fd (-1)) Hfd). auto.
  - intros Hempty. eapply sole_handle_connected; [exact Htg1|].
    rewrite Hfds0, Hempty in Hfds1.
    destruct Hfds1 as [[Hfd Hfds]|(Hfd & _ & Hfds)]; auto.
Qed.

(** Stale memory whose old handle 7 is still an open descriptor, and a peer
    that accepts on descriptor 3. *)
Lemma init_open_is_open_witness :
  In (sys_socket_open_tcp6_target, AF_INET6, SOCK_STREAM) open_variants /\
  targets stale_and_live !! 2%positive = Some stale_target /\
  exists r o m',
    (let! _ := sys_socket_init_network_target 2%positive in
     let! r := sys_socket_open_tcp6_target 2%positive in
     let! o := sys_socket_network_target_is_open 2%positive in
     ret (r, o)) stale_and_live = Some ((r, o), m') /\
    ((r = Some 2%positive /\ o = 1) \/ (r = NULL /\ o = 0)) /\
    (fds stale_and_live = ∅ -> sole_handle 2%positive m').
Proof.
  assert (Hin : In (sys_socket_open_tcp6_target, AF_INET6, SOCK_STREAM)
                   open_variants) by (cbn; auto).
  split; [exact Hin|]. split; [reflexivity|].
  apply (init_open_is_open _ _ _ 2%positive stale_target stale_and_live
           Hin); reflexivity.
Defined.

(** X3. A whole life of a target leaks nothing: when the process holds no
    descriptor, [init], any of the four open functions and
    [sys_socket_close_network_target] in a row return and leave the
    descriptor table empty again, whether the connection was made or not. *)
Theorem init_open_close_leaves_no_descriptor
    (op : target_ptr -> M (option target_ptr)) (domain type : Z)
    (p : target_ptr) (t : network_target) (m : machine) :
  In (op, domain, type) open_variants ->
  targets m !! p = Some t ->
  fds m = ∅ ->
  exists r m',
    (let! _ := sys_socket_init_network_target p in
     let! r := op p in
     let! _ := sys_socket_close_network_target p in
     ret r) m = Some (r, m') /\
    fds m' = ∅.
Proof.
  intros Hin Ht Hempty.
  destruct (init_network_target_spec p t m Ht)
    as (m0 & Hinit & Htg0 & Hfds0 & _).
  rewrite (bind_Some _ _ _ _ _ Hinit).
  destruct (open_target_spec domain type p
              (with_mutex MutexUnlocked (with_handle (-1) t)) m0)
    as (fd & m1 & Hop & Htg1 & _ & _ & Hfds1);
    [rewrite Htg0; apply lookup_insert_eq | reflexivity |].
  rewrite <- (open_variants_param _ _ _ Hin) in Hop.
  rewrite (bind_Some _ _ _ _ _ Hop).
  destruct (close_network_target_spec p
              (with_handle fd (with_mutex MutexUnlocked (with_handle (-1) t)))
              m1)
    as (m2 & Hclose & _ & Hfds2 & _);
    [rewrite Htg1; apply lookup_insert_eq | reflexivity |].
  rewrite (bind_Some _ _ _ _ _ Hclose).
  eexists _, m2. split; [reflexivity|].
  rewrite Hfds2. cbn [handle with_handle].
  rewrite Hfds0, Hempty in Hfds1.
  destruct Hfds1 as [[Hfd Hfds]|(Hfd & _ & s & Hfds)].
  - rewrite (proj2 (Z.eqb_eq fd (-1)) Hfd). exact Hfds.
  - rewrite (proj2 (Z.eqb_neq fd (-1)) Hfd), Hfds.
    rewrite delete_insert_eq. apply delete_empty.
Qed.

(** Stale memory and a peer that accepts on descriptor 3. *)
Lemma init_open_close_leaves_no_descriptor_witness :
  In (sys_socket_open_udp4_target, AF_INET, SOCK_DGRAM) open_variants /\
  targets stale_and_reachable !! 2%positive = Some stale_target /\
  fds stale_and_reachable = ∅ /\
  exists r m',
    (let! _ := sys_socket_init_network_target 2%positive in
     let! r := sys_socket_open_udp4_target 2%positive in
     let! _ := sys_socket_close_network_target 2%positive in
     ret r) stale_and_reachable = Some (r, m') /\
    fds m' = ∅.
Proof.
  assert (Hin : In (sys_socket_open_udp4_target, AF_INET, SOCK_DGRAM)
                   open_variants) by (cbn; auto).
  split; [exact Hin|]. split; [reflexivity|]. split; [reflexivity|].
  apply (init_open_close_leaves_no_descriptor _ _ _ 2%positive stale_target
           stale_and_reachable Hin); reflexivity.
Defined.

(** ** Sends at the edges *)

(** X4. With nothing to send, [sys_socket_sendto_tcp_target] returns 1 and
    leaves the machine as it found it: the loop is not entered, so there is
    no [recv] and no [send], also when the target is closed or the peer has
    gone. *)
Theorem sendto_tcp_empty_message
    (flag : Z) (p : target_ptr) (t : network_target) (msg : list byte)
    (m : machine) :
  targets m !! p = Some t ->
  mutex t = MutexUnlocked ->
  sys_socket_sendto_tcp_target flag p msg 0 m = Some (1, m).
Proof.
  intros Ht Hmu. unfold sys_socket_sendto_tcp_target. cbv zeta. call.
  cbn [sendto_tcp_loop Z.ltb Z.compare]. repeat call.
  unfold ret. do 2 f_equal. apply machine_eq; machine_simpl; try reflexivity.
  rewrite insert_insert_eq, unlock_after_lock by assumption.
  apply insert_id, Ht.
Qed.

(** A target that was never opened. *)
Lemma sendto_tcp_empty_message_witness :
  targets never_opened !! 1%positive = Some (example_target (-1)) /\
  mutex (example_target (-1)) = MutexUnlocked /\
  sys_socket_sendto_tcp_target 0 1%positive [] 0 never_opened
  = Some (1, never_opened).
Proof.
  split; [reflexivity|]. split; [reflexivity|].
  apply (sendto_tcp_empty_message 0 1%positive (example_target (-1)) []
           never_opened); reflexivity.
Defined.

Lemma recv_bad_descriptor fd len flags m :
  fds m !! fd = None ->
  recv fd len flags m
  = Some (-1, log (EvRecv fd len flags (-1)) (set_errno EBADF m)).
Proof. intros Hfd. unfold recv. rewrite Hfd. reflexivity. Qed.

Lemma send_bad_descriptor fd buffer len flags m :
  fds m !! fd = None ->
  send fd buffer len flags m
  = Some (-1, log (EvSend fd len flags (-1)) (set_errno EBADF m)).
Proof. intros Hfd. unfold send. rewrite Hfd. reflexivity. Qed.

(** X5. Sending through a handle that is no open descriptor, such as the
    closed value -1, fails with a send failure that carries [EBADF]. The
    TCP send, with at least one byte to send, makes one [recv] and one
    [send], both of which fail, and does not report a closed connection;
    the UDP send makes its one [send]. Both return -1 and leave the target
    and the descriptor table as they were. *)
Theorem send_on_closed_handle
    (flag : Z) (p : target_ptr) (t : network_target) (msg : list byte)
    (msg_size : Z) (m : machine) :
  targets m !! p = Some t ->
  mutex t = MutexUnlocked ->
  fds m !! handle t = None ->
  0 < msg_size <= SIZE_MAX ->
  (exists m',
     sys_socket_sendto_tcp_target flag p msg msg_size m = Some (-1, m') /\
     trace m' = trace m ++ [EvRecv (handle t) 1 MSG_DONTWAIT (-1);
                            EvSend (handle t) msg_size flag (-1)] /\
     errors m' = errors m ++
       [socket_send_failure L10N_SEND_SYS_SOCKET_FAILED_ERROR_MESSAGE
                            EBADF L10N_ERRNO_ERROR_CODE_TYPE] /\
     targets m' = targets m /\ fds m' = fds m) /\
  (exists m',
     sys_socket_sendto_udp_target flag p msg msg_size m = Some (-1, m') /\
     trace m' = trace m ++ [EvSend (handle t) msg_size flag (-1)] /\
     errors m' = errors m ++
       [socket_send_failure L10N_SEND_SYS_SOCKET_FAILED_ERROR_MESSAGE
                            EBADF L10N_ERRNO_ERROR_CODE_TYPE] /\
     targets m' = targets m /\ fds m' = fds m).
Proof.
  intros Ht Hmu Hfd Hsize. split.
  - unfold sys_socket_sendto_tcp_target. cbv zeta. call.
    cbn [sendto_tcp_loop]. rewrite (proj2 (Z.ltb_lt 0 msg_size) (proj1 Hsize)).
    unfold sendto_tcp_body. repeat call.
    erewrite bind_Some by (apply recv_bad_descriptor; machine_simpl; exact Hfd).
    cbn [Z.eqb]. repeat call.
    erewrite bind_Some by (apply send_bad_descriptor; machine_simpl; exact Hfd).
    cbn [unlikely Z.eqb Pos.eqb]. repeat call.
    rewrite Z.sub_0_r, size_t_small by lia.
    eexists. split; [reflexivity|]. machine_simpl.
    rewrite !insert_insert_eq, unlock_after_lock by assumption.
    rewrite (insert_id _ _ _ Ht), <- app_assoc. auto.
  - unfold sys_socket_sendto_udp_target. repeat call.
    erewrite bind_Some by (apply send_bad_descriptor; machine_simpl; exact Hfd).
    cbn [unlikely Z.eqb Pos.eqb]. repeat call.
    eexists. split; [reflexivity|]. machine_simpl.
    rewrite !insert_insert_eq, unlock_after_lock by assumption.
    rewrite (insert_id _ _ _ Ht). auto.
Qed.

(** A target that was never opened, and two bytes to send. *)
Lemma send_on_closed_handle_witness :
  targets never_opened !! 1%positive = Some (example_target (-1)) /\
  mutex (example_target (-1)) = MutexUnlocked /\
  fds never_opened !! handle (example_target (-1)) = None /\
  0 < 2 <= SIZE_MAX /\
  (exists m',
     sys_socket_sendto_tcp_target 0 1%positive ["a"%byte; "b"%byte] 2
                                  never_opened = Some (-1, m') /\
     trace m' = trace never_opened
                ++ [EvRecv (handle (example_target (-1))) 1 MSG_DONTWAIT (-1);
                    EvSend (handle (example_target (-1))) 2 0 (-1)] /\
     errors m' = errors never_opened ++
       [socket_send_failure L10N_SEND_SYS_SOCKET_FAILED_ERROR_MESSAGE
                            EBADF L10N_ERRNO_ERROR_CODE_TYPE] /\
     targets m' = targets never_opened /\ fds m' = fds never_opened) /\
  (exists m',
     sys_socket_sendto_udp_target 0 1%positive ["a"%byte; "b"%byte] 2
                                  never_opened = Some (-1, m') /\
     trace m' = trace never_opened
                ++ [EvSend (handle (example_target (-1))) 2 0 (-1)] /\
     errors m' = errors never_opened ++
       [socket_send_failure L10N_SEND_SYS_SOCKET_FAILED_ERROR_MESSAGE
                            EBADF L10N_ERRNO_ERROR_CODE_TYPE] /\
     targets m' = targets never_opened /\ fds m' = fds never_opened).
Proof.
  assert (Hsize : 0 < 2 <= SIZE_MAX) by (unfold SIZE_MAX; lia).
  split; [reflexivity|]. split; [reflexivity|]. split; [reflexivity|].
  split; [exact Hsize|].
  apply (send_on_closed_handle 0 1%positive (example_target (-1))
           ["a"%byte; "b"%byte] 2 never_opened eq_refl eq_refl eq_refl Hsize).
Defined.

(** Two passes of one byte each. *)
Lemma sendto_tcp_success_byte_count_witness :
  targets one_byte_first !! 1%positive = Some (example_target 3) /\
  mutex (example_target 3) = MutexUnlocked /\
  fds one_byte_first !! handle (example_target 3)
  = Some (example_socket [] false [Accept 1]) /\
  Z.of_nat (length ["a"%byte; "b"%byte]) <= SIZE_MAX /\
  exists m',
    sys_socket_sendto_tcp_target 0 1%positive ["a"%byte; "b"%byte]
      (Z.of_nat (length ["a"%byte; "b"%byte])) one_byte_first
    = Some (1, m') /\
    exists s',
      fds m' !! handle (example_target 3) = Some s' /\
      length (delivered s')
      = (length (delivered (example_socket [] false [Accept 1]))
         + length ["a"%byte; "b"%byte])%nat.
Proof.
  assert (Hmax : Z.of_nat (length ["a"%byte; "b"%byte]) <= SIZE_MAX)
    by (unfold SIZE_MAX; cbn; lia).
  split; [reflexivity|]. split; [reflexivity|]. split; [reflexivity|].
  split; [exact Hmax|].
  eexists. split; [vm_compute; reflexivity|].
  apply (sendto_tcp_success_byte_count 0 1%positive (example_target 3)
           (example_socket [] false [Accept 1]) ["a"%byte; "b"%byte]
           one_byte_first _ eq_refl eq_refl eq_refl Hmax).
  vm_compute. reflexivity.
Defined.

(** ** A message taken in one piece *)

Lemma send_takes_all fd buffer len flags m s :
  fds m !! fd = Some s ->
  (send_plan s = [] \/
   exists k plan, send_plan s = Accept k :: plan /\ len <= Z.pos k) ->
  exists plan',
    send fd buffer len flags m
    = Some (len, log (EvSend fd len flags len)
                   (set_fds (insert fd
                      (with_sent (take (Z.to_nat len) buffer) plan' s)) m)).
Proof.
  intros Hfd [Hplan|(k & plan & Hplan & Hk)]; unfold send; rewrite Hfd, Hplan.
  - exists []. reflexivity.
  - exists plan. rewrite Z.min_r by exact Hk. reflexivity.
Qed.

Lemma sendto_tcp_body_takes_all flag p tl s msg msg_size sent m :
  targets m !! p = Some tl ->
  fds m !! handle tl = Some s ->
  ~ (inbound s = [] /\ fin s = true) ->
  (send_plan s = [] \/
   exists k plan, send_plan s = Accept k :: plan /\ msg_size - sent <= Z.pos k) ->
  0 <= sent < msg_size ->
  msg_size <= SIZE_MAX ->
  exists m' rr s',
    sendto_tcp_body flag p msg msg_size sent m = Some (Continue msg_size, m') /\
    targets m' = targets m /\
    errors m' = errors m /\
    trace m' = trace m ++ [EvRecv (handle tl) 1 MSG_DONTWAIT rr;
                           EvSend (handle tl) (msg_size - sent) flag
                                  (msg_size - sent)] /\
    fds m' !! handle tl = Some s' /\
    inbound s' = tail (inbound s) /\
    fin s' = fin s /\
    delivered s' = delivered s ++ take (Z.to_nat (msg_size - sent)) msg.
Proof.
  intros Ht Hfd Hopen Hplan Hsent Hmax. unfold sendto_tcp_body. call.
  destruct (recv_check_spec (handle tl) m)
    as (rr & m1 & Hrecv & Htg1 & Herr1 & _ & Htr1 & _).
  destruct (recv_check_socket _ _ _ _ Hrecv) as (_ & _ & Hsome1).
  destruct (Hsome1 s Hfd) as (Hrr & s1 & Hfd1 & Hin1 & Hfin1 & Hdel1).
  assert (Hplan1 : send_plan s1 = send_plan s).
  { destruct (recv_check_spec (handle tl) m)
      as (rr0 & m0 & Hrecv0 & _ & _ & _ & _ & Hfds0).
    rewrite Hrecv in Hrecv0. injection Hrecv0 as <- <-.
    rewrite Hfd in Hfds0. destruct (inbound s) as [|b l].
    - destruct Hfds0 as [_ Hfds0]. rewrite Hfds0, Hfd in Hfd1.
      injection Hfd1 as <-. reflexivity.
    - destruct Hfds0 as [_ Hfds0]. rewrite Hfds0, lookup_insert_eq in Hfd1.
      injection Hfd1 as <-. reflexivity. }
  assert (Hnz : rr <> 0).
  { rewrite Hrr. destruct (inbound s); [|lia].
    destruct (fin s); [|lia]. exfalso. apply Hopen. auto. }
  call. rewrite (proj2 (Z.eqb_neq rr 0) Hnz). call.
  rewrite size_t_small by lia.
  destruct (send_takes_all (handle tl) msg (msg_size - sent) flag m1 s1 Hfd1)
    as (plan' & Hsend).
  { rewrite Hplan1. exact Hplan. }
  call. unfold unlikely.
  rewrite (proj2 (Z.eqb_neq (msg_size - sent) (-1))) by lia.
  replace (sent + (msg_size - sent)) with msg_size by lia.
  rewrite size_t_small by lia.
  eexists _, rr, _. split; [reflexivity|]. machine_simpl.
  rewrite lookup_insert_eq, Htg1, Herr1, Htr1, <- app_assoc.
  repeat (split; [reflexivity|]). cbn [inbound fin delivered with_sent].
  rewrite Hdel1. auto.
Qed.

(** X7. When the kernel takes the whole message with the first [send], and
    the check before it does not find the peer gone,
    [sys_socket_sendto_tcp_target] returns 1 after one [recv] and one
    [send], and the stream handed to the kernel has grown by the message,
    byte for byte. At most the first waiting inbound byte is gone. *)
Theorem sendto_tcp_whole_message
    (flag : Z) (p : target_ptr) (t : network_target) (s : socket)
    (msg : list byte) (m : machine) :
  targets m !! p = Some t ->
  mutex t = MutexUnlocked ->
  fds m !! handle t = Some s ->
  ~ (inbound s = [] /\ fin s = true) ->
  (send_plan s = [] \/
   exists k plan, send_plan s = Accept k :: plan /\
                  Z.of_nat (length msg) <= Z.pos k) ->
  0 < Z.of_nat (length msg) <= SIZE_MAX ->
  exists m' rr s',
    sys_socket_sendto_tcp_target flag p msg (Z.of_nat (length msg)) m
    = Some (1, m') /\
    trace m' = trace m ++ [EvRecv (handle t) 1 MSG_DONTWAIT rr;
                           EvSend (handle t) (Z.of_nat (length msg)) flag
                                  (Z.of_nat (length msg))] /\
    targets m' = targets m /\
    errors m' = errors m /\
    fds m' !! handle t = Some s' /\
    delivered s' = delivered s ++ msg /\
    inbound s' = tail (inbound s).
Proof.
  intros Ht Hmu Hfd Hopen Hplan Hsize.
  unfold sys_socket_sendto_tcp_target. cbv zeta. call.
  destruct (Z.to_nat (Z.of_nat (length msg))) as [|fuel] eqn:Hfuel; [lia|].
  cbn [sendto_tcp_loop].
  rewrite (proj2 (Z.ltb_lt 0 _) (proj1 Hsize)). rewrite bind_assoc.
  destruct (sendto_tcp_body_takes_all flag p (with_mutex MutexLocked t) s msg
              (Z.of_nat (length msg)) 0
              (set_targets <[p:=with_mutex MutexLocked t]> m))
    as (m1 & rr & s' & Hbody & Htg & Herr & Htr & Hfd' & Hin & _ & Hdel);
    [machine_simpl; apply lookup_insert_eq | exact Hfd | exact Hopen
    | rewrite Z.sub_0_r; exact Hplan | lia | lia |].
  machine_simpl_all. rewrite Z.sub_0_r in Htr, Hdel.
  rewrite (bind_Some _ _ _ _ _ Hbody). cbv iota beta.
  rewrite Z.ltb_irrefl. repeat call.
  eexists _, rr, s'. split; [reflexivity|]. machine_simpl.
  rewrite Htg, !insert_insert_eq, unlock_after_lock by assumption.
  rewrite (insert_id _ _ _ Ht), Nat2Z.id, firstn_all in *.
  auto 10.
Qed.

(** Two bytes to a silent peer that takes whatever it is given. *)
Lemma sendto_tcp_whole_message_witness :
  targets quiet_peer !! 1%positive = Some (example_target 3) /\
  mutex (example_target 3) = MutexUnlocked /\
  fds quiet_peer !! handle (example_target 3)
  = Some (example_socket [] false []) /\
  ~ (inbound (example_socket [] false []) = [] /\
     fin (example_socket [] false []) = true) /\
  (send_plan (example_socket [] false []) = [] \/
   exists k plan, send_plan (example_socket [] false []) = Accept k :: plan /\
                  Z.of_nat (length ["a"%byte; "b"%byte]) <= Z.pos k) /\
  0 < Z.of_nat (length ["a"%byte; "b"%byte]) <= SIZE_MAX /\
  exists m' rr s',
    sys_socket_sendto_tcp_target 0 1%positive ["a"%byte; "b"%byte]
      (Z.of_nat (length ["a"%byte; "b"%byte])) quiet_peer = Some (1, m') /\
    trace m' = trace quiet_peer
               ++ [EvRecv (handle (example_target 3)) 1 MSG_DONTWAIT rr;
                   EvSend (handle (example_target 3))
                          (Z.of_nat (length ["a"%byte; "b"%byte])) 0
                          (Z.of_nat (length ["a"%byte; "b"%byte]))] /\
    targets m' = targets quiet_peer /\
    errors m' = errors quiet_peer /\
    fds m' !! handle (example_target 3) = Some s' /\
    delivered s' = delivered (example_socket [] false [])
                   ++ ["a"%byte; "b"%byte] /\
    inbound s' = tail (inbound (example_socket [] false [])).
Proof.
  assert (Hopen : ~ (inbound (example_socket [] false []) = [] /\
                     fin (example_socket [] false []) = true))
    by (intros [_ H]; discriminate H).
  assert (Hplan : send_plan (example_socket [] false []) = [] \/
                  exists k plan,
                    send_plan (example_socket [] false []) = Accept k :: plan /\
                    Z.of_nat (length ["a"%byte; "b"%byte]) <= Z.pos k)
    by (left; reflexivity).
  assert (Hsize : 0 < Z.of_nat (length ["a"%byte; "b"%byte]) <= SIZE_MAX)
    by (unfold SIZE_MAX; cbn; lia).
  split; [reflexivity|]. split; [reflexivity|]. split; [reflexivity|].
  split; [exact Hopen|]. split; [exact Hplan|]. split; [exact Hsize|].
  apply (sendto_tcp_whole_message 0 1%positive (example_target 3)
           (example_socket [] false []) ["a"%byte; "b"%byte] quiet_peer
           eq_refl eq_refl eq_refl Hopen Hplan Hsize).
Defined.

(** ** What an operation leaves alone *)

(** X8. Every operation that takes the lock changes nothing in the memory
    of targets but the handle field of its own target: destination and port
    stay, the mutex is free again, and every other target is untouched. The
    TCP send leaves the handle or sets it to -1; the UDP send leaves the
    memory of targets as it was. *)
Theorem operations_change_only_the_handle
    (flag : Z) (p : target_ptr) (t : network_target) (msg : list byte)
    (msg_size : Z) (m : machine) :
  targets m !! p = Some t ->
  mutex t = MutexUnlocked ->
  0 <= msg_size <= SIZE_MAX ->
  (forall op domain type r m',
     In (op, domain, type) (open_variants ++ reopen_variants) ->
     op p m = Some (r, m') ->
     exists h, targets m' = <[p := with_handle h t]> (targets m)) /\
  (forall r m',
     sys_socket_sendto_tcp_target flag p msg msg_size m = Some (r, m') ->
     exists h, (h = handle t \/ h = -1) /\
               targets m' = <[p := with_handle h t]> (targets m)) /\
  (forall r m',
     sys_socket_sendto_udp_target flag p msg msg_size m = Some (r, m') ->
     targets m' = targets m).
Proof.
  intros Ht Hmu Hsize.
  assert (Hid : targets m = <[p := with_handle (handle t) t]> (targets m))
    by (rewrite with_handle_id; symmetry; apply insert_id, Ht).
  split; [|split].
  - intros op domain type r m' Hin Hrun. apply in_app_or in Hin as [Hin|Hin].
    + rewrite (open_variants_param _ _ _ Hin) in Hrun.
      destruct (open_target_spec domain type p t m Ht Hmu)
        as (fd & m1 & Hop & Htg & _).
      rewrite Hop in Hrun. injection Hrun as _ <-. eauto.
    + rewrite (reopen_variants_param _ _ _ Hin) in Hrun.
      destruct (decide (handle t = -1)) as [Hh|Hh].
      * rewrite (reopen_target_closed domain type p t m Ht Hmu Hh) in Hrun.
        injection Hrun as _ <-. eauto.
      * destruct (reopen_target_open domain type p t m Ht Hmu Hh)
          as (fd & m1 & Hop & Htg & _).
        rewrite Hop in Hrun. injection Hrun as _ <-. eauto.
  - intros r m' Hrun.
    destruct (sendto_tcp_spec flag p t msg msg_size m Ht Hmu Hsize)
      as (r0 & m0 & evs & Htcp & _ & _ & Hout).
    rewrite Htcp in Hrun. injection Hrun as _ <-.
    destruct Hout as [(_ & Htg & _)|[(_ & Htg & _)|(_ & Htg & _)]].
    + exists (handle t). split; [auto|]. rewrite Htg. exact Hid.
    + exists (handle t). split; [auto|]. rewrite Htg. exact Hid.
    + exists (-1). auto.
  - intros r m' Hrun.
    destruct (sendto_udp_spec flag p t msg msg_size m Ht Hmu)
      as (sr & m0 & Hudp & _ & Htg & _).
    rewrite Hudp in Hrun. injection Hrun as _ <-. exact Htg.
Qed.

(** The target that holds descriptor 3, with a peer that would accept. *)
Lemma operations_change_only_the_handle_witness :
  targets already_open !! 1%positive = Some (example_target 3) /\
  mutex (example_target 3) = MutexUnlocked /\
  0 <= 2 <= SIZE_MAX /\
  (forall op domain type r m',
     In (op, domain, type) (open_variants ++ reopen_variants) ->
     op 1%positive already_open = Some (r, m') ->
     exists h, targets m' = <[1%positive := with_handle h (example_target 3)]>
                              (targets already_open)) /\
  (forall r m',
     sys_socket_sendto_tcp_target 0 1%positive ["a"%byte; "b"%byte] 2
                                  already_open = Some (r, m') ->
     exists h, (h = handle (example_target 3) \/ h = -1) /\
               targets m' = <[1%positive := with_handle h (example_target 3)]>
                              (targets already_open)) /\
  (forall r m',
     sys_socket_sendto_udp_target 0 1%positive ["a"%byte; "b"%byte] 2
                                  already_open = Some (r, m') ->
     targets m' = targets already_open).
Proof.
  assert (Hsize : 0 <= 2 <= SIZE_MAX) by (unfold SIZE_MAX; lia).
  split; [reflexivity|]. split; [reflexivity|]. split; [exact Hsize|].
  apply (operations_change_only_the_handle 0 1%positive (example_target 3)
           ["a"%byte; "b"%byte] 2 already_open eq_refl eq_refl Hsize).
Defined.

(** ** A reconnection that fails *)

(** X9. Reopening an open target ends in one of two ways. When the connect
    wrapper returns a descriptor, it is the new handle and [is_open] answers
    1. When it returns -1, the old descriptor is closed all the same, the
    handle is -1, [is_open] answers 0, and from then on every reopen
    function is a no-op on the target: reopening cannot bring it back. The
    call returns the target in both cases. *)
Theorem reopen_failure_is_final
    (op : target_ptr -> M (option target_ptr)) (domain type : Z)
    (p : target_ptr) (t : network_target) (m : machine) :
  In (op, domain, type) reopen_variants ->
  targets m !! p = Some t ->
  mutex t = MutexUnlocked ->
  handle t <> -1 ->
  exists fd m1,
    op p m = Some (Some p, m1) /\
    trace m1 = trace m ++ [EvClose (handle t);
                           EvConnect (destination t) (port t) domain type 0 fd] /\
    targets m1 !! p = Some (with_handle fd t) /\
    (fd <> -1 ->
       sys_socket_network_target_is_open p m1 = Some (1, m1)) /\
    (fd = -1 ->
       sys_socket_network_target_is_open p m1 = Some (0, m1) /\
       fds m1 = delete (handle t) (fds m) /\
       forall op' domain' type',
         In (op', domain', type') reopen_variants ->
         op' p m1 = Some (Some p, m1)).
Proof.
  intros Hin Ht Hmu Hh. rewrite (reopen_variants_param _ _ _ Hin).
  destruct (reopen_target_open domain type p t m Ht Hmu Hh)
    as (fd & m1 & Hop & Htg & _ & Htr & Hfds).
  assert (Ht1 : targets m1 !! p = Some (with_handle fd t))
    by (rewrite Htg; apply lookup_insert_eq).
  exists fd, m1. split; [exact Hop|]. split; [exact Htr|]. split; [exact Ht1|].
  split.
  - intros Hfd. rewrite (is_open_eq p _ m1 Ht1). cbn [handle with_handle].
    rewrite (proj2 (Z.eqb_neq fd (-1)) Hfd). reflexivity.
  - intros Hfd. split; [|split].
    + rewrite (is_open_eq p _ m1 Ht1). cbn [handle with_handle].
      rewrite (proj2 (Z.eqb_eq fd (-1)) Hfd). reflexivity.
    + destruct Hfds as [[_ Hfds]|[Hne _]]; [exact Hfds|contradiction].
    + intros op' domain' type' Hin'.
      rewrite (reopen_variants_param _ _ _ Hin').
      apply (reopen_target_closed domain' type' p (with_handle fd t) m1 Ht1);
        [exact Hmu | exact Hfd].
Qed.

(** A peer that refuses the reconnection. *)
Lemma reopen_failure_is_final_witness :
  In (sys_socket_reopen_udp6_target, AF_INET6, SOCK_DGRAM) reopen_variants /\
  targets quiet_peer !! 1%positive = Some (example_target 3) /\
  mutex (example_target 3) = MutexUnlocked /\
  handle (example_target 3) <> -1 /\
  exists fd m1,
    sys_socket_reopen_udp6_target 1%positive quiet_peer
    = Some (Some 1%positive, m1) /\
    trace m1 = trace quiet_peer
               ++ [EvClose (handle (example_target 3));
                   EvConnect (destination (example_target 3))
                             (port (example_target 3))
                             AF_INET6 SOCK_DGRAM 0 fd] /\
    targets m1 !! 1%positive = Some (with_handle fd (example_target 3)) /\
    (fd <> -1 ->
       sys_socket_network_target_is_open 1%positive m1 = Some (1, m1)) /\
    (fd = -1 ->
       sys_socket_network_target_is_open 1%positive m1 = Some (0, m1) /\
       fds m1 = delete (handle (example_target 3)) (fds quiet_peer) /\
       forall op' domain' type',
         In (op', domain', type') reopen_variants ->
         op' 1%positive m1 = Some (Some 1%positive, m1)).
Proof.
  assert (Hin : In (sys_socket_reopen_udp6_target, AF_INET6, SOCK_DGRAM)
                   reopen_variants) by (cbn; auto 10).
  assert (Hh : handle (example_target 3) <> -1) by (cbn; lia).
  split; [exact Hin|]. split; [reflexivity|]. split; [reflexivity|].
  split; [exact Hh|].
  apply (reopen_failure_is_final _ _ _ 1%positive (example_target 3)
           quiet_peer Hin eq_refl eq_refl Hh).
Defined.

(** ** Sends and the one handle *)

Lemma sole_handle_same_dom p m m' :
  targets m' = targets m ->
  dom (fds m') = dom (fds m) ->
  sole_handle p m -> sole_handle p m'.
Proof.
  intros Htg Hdom Hsole fd s Hfd.
  assert (Hin : fd ∈ dom (fds m)) by (rewrite <- Hdom; apply elem_of_dom; eauto).
  apply elem_of_dom in Hin as [s0 Hs0].
  rewrite Htg. exact (Hsole fd s0 Hs0).
Qed.

(** X10. Both send functions keep a target to one handle: when the target
    held the only descriptor of the process before the call, it holds the
    only one afterwards; after the TCP send has found the peer gone, the
    process holds none. *)
Theorem sends_keep_sole_handle
    (flag : Z) (p : target_ptr) (t : network_target) (msg : list byte)
    (msg_size : Z) (m : machine) :
  targets m !! p = Some t ->
  mutex t = MutexUnlocked ->
  0 <= msg_size <= SIZE_MAX ->
  sole_handle p m ->
  (forall r m',
     sys_socket_sendto_tcp_target flag p msg msg_size m = Some (r, m') ->
     sole_handle p m' /\
     (errors m' = errors m ++
        [network_closed L10N_NETWORK_CLOSED_ERROR_MESSAGE] ->
      fds m' = ∅)) /\
  (forall r m',
     sys_socket_sendto_udp_target flag p msg msg_size m = Some (r, m') ->
     sole_handle p m').
Proof.
  intros Ht Hmu Hsize Hsole. split.
  - intros r m' Hrun.
    destruct (sendto_tcp_spec flag p t msg msg_size m Ht Hmu Hsize)
      as (r0 & m0 & evs & Htcp & _ & _ & Hout).
    rewrite Htcp in Hrun. injection Hrun as _ <-.
    assert (Hgone : dom (fds m0) = dom (fds m) ∖ {[handle t]} -> fds m0 = ∅).
    { intros Hdom. apply map_empty. intros fd. apply not_elem_of_dom.
      rewrite Hdom. intros [Hin Hne]%elem_of_difference.
      apply elem_of_dom in Hin as [s Hs].
      destruct (Hsole fd s Hs) as (t' & Ht' & Hh & _).
      rewrite Ht in Ht'. injection Ht' as <-.
      apply Hne, elem_of_singleton. congruence. }
    destruct Hout as [(_ & Htg & Herr & Hdom & _)
                     |[(_ & Htg & Herr & Hdom & _)
                      |(_ & Htg & Herr & Hdom & _)]].
    + split; [eapply sole_handle_same_dom; eassumption|].
      intros Hbad. rewrite Herr in Hbad.
      apply (f_equal length) in Hbad. rewrite length_app in Hbad.
      cbn in Hbad. lia.
    + split; [eapply sole_handle_same_dom; eassumption|].
      intros Hbad. rewrite Herr in Hbad. apply app_inv_head in Hbad.
      discriminate.
    + split; [|intros _; exact (Hgone Hdom)].
      intros fd s Hfd. rewrite (Hgone Hdom), lookup_empty in Hfd.
      discriminate.
  - intros r m' Hrun.
    destruct (sendto_udp_spec flag p t msg msg_size m Ht Hmu)
      as (sr & m0 & Hudp & _ & Htg & Hdom & _).
    rewrite Hudp in Hrun. injection Hrun as _ <-.
    eapply sole_handle_same_dom; eassumption.
Qed.

Lemma sole_handle_peer_gone : sole_handle 1%positive peer_gone.
Proof.
  intros fd s Hfd. cbn in Hfd.
  apply lookup_singleton_Some in Hfd as [<- _].
  exists (example_target 3). split; [reflexivity|]. split; [reflexivity|lia].
Qed.

(** A peer that has shut down: the descriptor goes with the handle. *)
Lemma sends_keep_sole_handle_witness :
  targets peer_gone !! 1%positive = Some (example_target 3) /\
  mutex (example_target 3) = MutexUnlocked /\
  0 <= 2 <= SIZE_MAX /\
  sole_handle 1%positive peer_gone /\
  (forall r m',
     sys_socket_sendto_tcp_target 0 1%positive ["a"%byte; "b"%byte] 2
                                  peer_gone = Some (r, m') ->
     sole_handle 1%positive m' /\
     (errors m' = errors peer_gone ++
        [network_closed L10N_NETWORK_CLOSED_ERROR_MESSAGE] ->
      fds m' = ∅)) /\
  (forall r m',
     sys_socket_sendto_udp_target 0 1%positive ["a"%byte; "b"%byte] 2
                                  peer_gone = Some (r, m') ->
     sole_handle 1%positive m').
Proof.
  assert (Hsize : 0 <= 2 <= SIZE_MAX) by (unfold SIZE_MAX; lia).
  split; [reflexivity|]. split; [reflexivity|]. split; [exact Hsize|].
  split; [exact sole_handle_peer_gone|].
  apply (sends_keep_sole_handle 0 1%positive (example_target 3)
           ["a"%byte; "b"%byte] 2 peer_gone eq_refl eq_refl Hsize
           sole_handle_peer_gone).
Defined.

(** ** What the UDP send hands over *)

(** X11. On an open descriptor, [sys_socket_sendto_udp_target] never reads
    from the socket and never looks at the state of the peer: the waiting
    inbound bytes and the shutdown mark are as before. When its [send]
    returns [sr] other than -1, the stream handed to the kernel has grown by
    the first [sr] bytes of the message, with [sr] at most [msg_size], and
    the call returns 1; when the [send] fails nothing is handed over and the
    call returns -1. *)
Theorem sendto_udp_hands_over_prefix
    (flag : Z) (p : target_ptr) (t : network_target) (s : socket)
    (msg : list byte) (msg_size : Z) (m : machine) :
  targets m !! p = Some t ->
  mutex t = MutexUnlocked ->
  fds m !! handle t = Some s ->
  0 <= msg_size ->
  exists sr r m' s',
    sys_socket_sendto_udp_target flag p msg msg_size m = Some (r, m') /\
    trace m' = trace m ++ [EvSend (handle t) msg_size flag sr] /\
    fds m' !! handle t = Some s' /\
    inbound s' = inbound s /\
    fin s' = fin s /\
    ((sr = -1 /\ r = -1 /\ delivered s' = delivered s) \/
     (0 <= sr <= msg_size /\ r = 1 /\
      delivered s' = delivered s ++ take (Z.to_nat sr) msg)).
Proof.
  intros Ht Hmu Hfd Hsize. unfold sys_socket_sendto_udp_target. repeat call.
  destruct (send_spec (handle t) msg msg_size flag
              (set_targets <[p:=with_mutex MutexLocked t]> m))
    as (sr & m1 & Hsend & Htg & _ & _ & Htr & _).
  destruct (send_socket _ _ _ _ _ _ _ Hsend) as (_ & _ & Hsome).
  machine_simpl_all.
  destruct (Hsome s Hfd) as (Hrange & s' & Hfd' & Hin & Hfin & Hdel).
  call. exists sr. unfold unlikely.
  destruct (Z.eqb_spec sr (-1)) as [Hsr|Hsr].
  - repeat call. eexists _, _, s'. split; [reflexivity|]. machine_simpl.
    rewrite app_nil_r in Hdel. auto 10.
  - repeat call. eexists _, _, s'. split; [reflexivity|]. machine_simpl.
    destruct (Hrange Hsize) as [Hbad|[Hr _]]; [contradiction|]. auto 10.
Qed.

(** Two bytes offered to a peer that takes one. *)
Lemma sendto_udp_hands_over_prefix_witness :
  targets one_byte_first !! 1%positive = Some (example_target 3) /\
  mutex (example_target 3) = MutexUnlocked /\
  fds one_byte_first !! handle (example_target 3)
  = Some (example_socket [] false [Accept 1]) /\
  0 <= 2 /\
  exists sr r m' s',
    sys_socket_sendto_udp_target 0 1%positive ["a"%byte; "b"%byte] 2
                                 one_byte_first = Some (r, m') /\
    trace m' = trace one_byte_first
               ++ [EvSend (handle (example_target 3)) 2 0 sr] /\
    fds m' !! handle (example_target 3) = Some s' /\
    inbound s' = inbound (example_socket [] false [Accept 1]) /\
    fin s' = fin (example_socket [] false [Accept 1]) /\
    ((sr = -1 /\ r = -1 /\
      delivered s' = delivered (example_socket [] false [Accept 1])) \/
     (0 <= sr <= 2 /\ r = 1 /\
      delivered s' = delivered (example_socket [] false [Accept 1])
                     ++ take (Z.to_nat sr) ["a"%byte; "b"%byte])).
Proof.
  split; [reflexivity|]. split; [reflexivity|]. split; [reflexivity|].
  split; [lia|].
  apply (sendto_udp_hands_over_prefix 0 1%positive (example_target 3)
           (example_socket [] false [Accept 1]) ["a"%byte; "b"%byte] 2
           one_byte_first); first [reflexivity | lia].
Defined.

(** ** Descriptors of others *)

Lemma recv_check_other fd m r m' :
  recv fd 1 MSG_DONTWAIT m = Some (r, m') ->
  forall fd', fd' <> fd -> fds m' !! fd' = fds m !! fd'.
Proof.
  intros Hrecv fd' Hne.
  destruct (recv_check_spec fd m) as (r0 & m0 & Hspec & _ & _ & _ & _ & Hfds).
  rewrite Hrecv in Hspec. injection Hspec as <- <-.
  destruct (fds m !! fd) as [s|]; [destruct (inbound s)|];
    destruct Hfds as [_ Hfds]; rewrite Hfds; try reflexivity.
  apply lookup_insert_ne. congruence.
Qed.

Lemma send_other fd buffer len flags m r m' :
  send fd buffer len flags m = Some (r, m') ->
  forall fd', fd' <> fd -> fds m' !! fd' = fds m !! fd'.
Proof.
  intros Hsend fd' Hne.
  destruct (send_spec fd buffer len flags m)
    as (r0 & m0 & Hspec & _ & _ & _ & _ & Hfds).
  rewrite Hsend in Hspec. injection Hspec as <- <-.
  destruct (fds m !! fd) as [s|].
  - destruct Hfds as [_ [plan Hfds]]. rewrite Hfds.
    apply lookup_insert_ne. congruence.
  - destruct Hfds as [_ Hfds]. rewrite Hfds. reflexivity.
Qed.

Lemma unlock_network_target_fds p m u m' :
  unlock_network_target p m = Some (u, m') -> fds m' = fds m.
Proof.
  unfold unlock_network_target. intros H.
  apply bind_inv in H as (t & m1 & Hl & H).
  unfold load in Hl. destruct (targets m !! p) as [t'|] eqn:Ht; [|discriminate].
  injection Hl as -> ->. destruct (mutex t); try discriminate.
  unfold store in H. rewrite Ht in H. injection H as _ <-. reflexivity.
Qed.

Lemma sendto_tcp_body_other flag p tl msg msg_size sent m c m' :
  targets m !! p = Some tl ->
  sendto_tcp_body flag p msg msg_size sent m = Some (c, m') ->
  forall fd, fd <> handle tl -> fds m' !! fd = fds m !! fd.
Proof.
  intros Ht Hrun fd Hne. revert Hrun. unfold sendto_tcp_body. call.
  destruct (recv_check_spec (handle tl) m)
    as (rr & m1 & Hrecv & Htg1 & _).
  pose proof (recv_check_other _ _ _ _ Hrecv fd Hne) as Ho1.
  call. destruct (rr =? 0).
  - repeat call.
    destruct (close_spec (handle tl)
                (report (network_closed L10N_NETWORK_CLOSED_ERROR_MESSAGE) m1))
      as (r & m2 & Hcl & Htg2 & _ & _ & _ & Hfds2).
    machine_simpl_all. repeat call. intros [= _ <-]. machine_simpl.
    rewrite Hfds2, lookup_delete_ne by congruence. exact Ho1.
  - call.
    destruct (send_spec (handle tl) msg (size_t (msg_size - sent)) flag m1)
      as (sr & m2 & Hsend & Htg2 & _).
    pose proof (send_other _ _ _ _ _ _ _ Hsend fd Hne) as Ho2.
    call. unfold unlikely. destruct (sr =? -1).
    + repeat call. intros [= _ <-]. machine_simpl. congruence.
    + repeat call. intros [= _ <-]. congruence.
Qed.

Lemma sendto_tcp_loop_other flag p tl msg msg_size :
  forall fuel sent m r m',
    targets m !! p = Some tl ->
    sendto_tcp_loop flag fuel p msg msg_size sent 1 m = Some (r, m') ->
    forall fd, fd <> handle tl -> fds m' !! fd = fds m !! fd.
Proof.
  induction fuel as [|fuel IH]; intros sent m r m' Ht Hrun fd Hne.
  { discriminate. }
  cbn [sendto_tcp_loop] in Hrun. destruct (sent <? msg_size).
  - apply bind_inv in Hrun as (c & m1 & Hbody & Hrest).
    pose proof (sendto_tcp_body_other _ _ _ _ _ _ _ _ _ Ht Hbody fd Hne) as Ho.
    destruct c as [r1|sent'].
    + injection Hrest as _ <-. exact Ho.
    + destruct (sendto_tcp_body_spec flag p tl msg msg_size sent m Ht)
        as (c0 & m0 & rr & Hspec & _ & _ & _ & Hcases).
      rewrite Hbody in Hspec. injection Hspec as <- <-.
      assert (Htg : targets m1 = targets m).
      { destruct Hcases as [(_ & Hc & _)|(_ & sr & _ & Htg & _)];
          [discriminate|exact Htg]. }
      rewrite <- Ho. eapply IH; [|exact Hrest|exact Hne].
      rewrite Htg. exact Ht.
  - injection Hrun as _ <-. reflexivity.
Qed.

(** X12. No operation disturbs a descriptor that is not its own. The open
    functions leave every open descriptor of the process with its socket;
    the reopen functions and both send functions leave every descriptor
    other than the handle of their target as it was. *)
Theorem operations_leave_other_descriptors
    (flag : Z) (p : target_ptr) (t : network_target) (msg : list byte)
    (msg_size : Z) (m : machine) :
  targets m !! p = Some t ->
  mutex t = MutexUnlocked ->
  (forall op domain type r m' fd s,
     In (op, domain, type) open_variants ->
     op p m = Some (r, m') ->
     fds m !! fd = Some s -> fds m' !! fd = Some s) /\
  (forall op domain type r m' fd s,
     In (op, domain, type) reopen_variants ->
     op p m = Some (r, m') ->
     fd <> handle t ->
     fds m !! fd = Some s -> fds m' !! fd = Some s) /\
  (forall r m' fd,
     sys_socket_sendto_tcp_target flag p msg msg_size m = Some (r, m') ->
     fd <> handle t -> fds m' !! fd = fds m !! fd) /\
  (forall r m' fd,
     sys_socket_sendto_udp_target flag p msg msg_size m = Some (r, m') ->
     fd <> handle t -> fds m' !! fd = fds m !! fd).
Proof.
  intros Ht Hmu. split; [|split; [|split]].
  - intros op domain type r m' fd s Hin Hrun Hfd.
    rewrite (open_variants_param _ _ _ Hin) in Hrun.
    destruct (open_target_spec domain type p t m Ht Hmu)
      as (fd0 & m1 & Hop & _ & _ & _ & Hfds).
    rewrite Hop in Hrun. injection Hrun as _ <-.
    destruct Hfds as [[_ Hfds]|(_ & Hfree & s0 & Hfds)]; rewrite Hfds.
    + exact Hfd.
    + rewrite lookup_insert_ne by congruence. exact Hfd.
  - intros op domain type r m' fd s Hin Hrun Hne Hfd.
    rewrite (reopen_variants_param _ _ _ Hin) in Hrun.
    destruct (decide (handle t = -1)) as [Hh|Hh].
    + rewrite (reopen_target_closed domain type p t m Ht Hmu Hh) in Hrun.
      injection Hrun as _ <-. exact Hfd.
    + destruct (reopen_target_open domain type p t m Ht Hmu Hh)
        as (fd0 & m1 & Hop & _ & _ & _ & Hfds).
      rewrite Hop in Hrun. injection Hrun as _ <-.
      assert (Hdel : delete (handle t) (fds m) !! fd = Some s)
        by (rewrite lookup_delete_ne by congruence; exact Hfd).
      destruct Hfds as [[_ Hfds]|(_ & Hfree & s0 & Hfds)]; rewrite Hfds.
      * exact Hdel.
      * rewrite lookup_insert_ne by congruence. exact Hdel.
  - intros r m' fd Hrun Hne.
    unfold sys_socket_sendto_tcp_target in Hrun. cbv zeta in Hrun.
    erewrite bind_Some in Hrun
      by (eapply lock_network_target_eq; eassumption).
    apply bind_inv in Hrun as (r1 & m1 & Hloop & Hrest).
    apply bind_inv in Hrest as (u & m2 & Hunlock & Hret).
    injection Hret as _ <-.
    rewrite (unlock_network_target_fds _ _ _ _ Hunlock).
    apply (sendto_tcp_loop_other flag p (with_mutex MutexLocked t) msg msg_size
             _ _ _ _ _ (lookup_insert_eq _ _ _) Hloop fd Hne).
  - intros r m' fd Hrun Hne. revert Hrun.
    unfold sys_socket_sendto_udp_target. repeat call.
    destruct (send_spec (handle t) msg msg_size flag
                (set_targets <[p:=with_mutex MutexLocked t]> m))
      as (sr & m1 & Hsend & Htg & _).
    pose proof (send_other _ _ _ _ _ _ _ Hsend fd Hne) as Ho.
    machine_simpl_all. call. unfold unlikely. destruct (sr =? -1).
    + repeat call. intros [= _ <-]. exact Ho.
    + repeat call. intros [= _ <-]. exact Ho.
Qed.

(** A process with a second descriptor, 5, beside the one of the target. *)
Lemma operations_leave_other_descriptors_witness :
  targets two_descriptors !! 1%positive = Some (example_target 3) /\
  mutex (example_target 3) = MutexUnlocked /\
  (forall op domain type r m' fd s,
     In (op, domain, type) open_variants ->
     op 1%positive two_descriptors = Some (r, m') ->
     fds two_descriptors !! fd = Some s -> fds m' !! fd = Some s) /\
  (forall op domain type r m' fd s,
     In (op, domain, type) reopen_variants ->
     op 1%positive two_descriptors = Some (r, m') ->
     fd <> handle (example_target 3) ->
     fds two_descriptors !! fd = Some s -> fds m' !! fd = Some s) /\
  (forall r m' fd,
     sys_socket_sendto_tcp_target 0 1%positive ["a"%byte; "b"%byte] 2
                                  two_descriptors = Some (r, m') ->
     fd <> handle (example_target 3) ->
     fds m' !! fd = fds two_descriptors !! fd) /\
  (forall r m' fd,
     sys_socket_sendto_udp_target 0 1%positive ["a"%byte; "b"%byte] 2
                                  two_descriptors = Some (r, m') ->
     fd <> handle (example_target 3) ->
     fds m' !! fd = fds two_descriptors !! fd).
Proof.
  split; [reflexivity|]. split; [reflexivity|].
  apply (operations_leave_other_descriptors 0 1%positive (example_target 3)
           ["a"%byte; "b"%byte] 2 two_descriptors); reflexivity.
Defined.

(** ** Return values and reports *)

(** X13. The value a send function returns agrees with what it reports.
    Whenever [sys_socket_sendto_tcp_target] or
    [sys_socket_sendto_udp_target] returns on a target that was ready, the
    value is 1 or -1; a call that returns 1 has added no report, and a call
    that returns -1 has added exactly one, which for the UDP send is a send
    failure that carries [errno]. *)
Theorem sends_return_and_report
    (flag : Z) (p : target_ptr) (t : network_target) (msg : list byte)
    (msg_size : Z) (m : machine) :
  targets m !! p = Some t ->
  mutex t = MutexUnlocked ->
  0 <= msg_size <= SIZE_MAX ->
  (forall r m',
     sys_socket_sendto_tcp_target flag p msg msg_size m = Some (r, m') ->
     (r = 1 /\ errors m' = errors m) \/
     (r = -1 /\ exists e, errors m' = errors m ++ [e])) /\
  (forall r m',
     sys_socket_sendto_udp_target flag p msg msg_size m = Some (r, m') ->
     (r = 1 /\ errors m' = errors m) \/
     (r = -1 /\
      errors m' = errors m ++
        [socket_send_failure L10N_SEND_SYS_SOCKET_FAILED_ERROR_MESSAGE
                             (errno m') L10N_ERRNO_ERROR_CODE_TYPE])).
Proof.
  intros Ht Hmu Hsize. split.
  - intros r m' Hrun.
    destruct (sendto_tcp_spec flag p t msg msg_size m Ht Hmu Hsize)
      as (r0 & m0 & evs & Htcp & _ & _ & Hout).
    rewrite Htcp in Hrun. injection Hrun as <- <-.
    destruct Hout as [(-> & _ & Herr & _)
                     |[(-> & _ & Herr & _)|(-> & _ & Herr & _)]]; eauto.
  - intros r m' Hrun.
    destruct (sendto_udp_spec flag p t msg msg_size m Ht Hmu)
      as (sr & m0 & Hudp & _ & _ & _ & Herr).
    rewrite Hudp in Hrun. injection Hrun as <- <-.
    destruct (sr =? -1).
    + right. auto.
    + left. rewrite app_nil_r in Herr. auto.
Qed.

(** A pipe that breaks after the first byte: the TCP send returns -1 with
    one report, the UDP send returns 1 with none. *)
Lemma sends_return_and_report_witness :
  targets pipe_breaks_midway !! 1%positive = Some (example_target 3) /\
  mutex (example_target 3) = MutexUnlocked /\
  0 <= 2 <= SIZE_MAX /\
  (exists m',
     sys_socket_sendto_tcp_target 0 1%positive ["a"%byte; "b"%byte] 2
                                  pipe_breaks_midway = Some (-1, m') /\
     ((-1 = 1 /\ errors m' = errors pipe_breaks_midway) \/
      (-1 = -1 /\ exists e, errors m' = errors pipe_breaks_midway ++ [e]))) /\
  (exists m',
     sys_socket_sendto_udp_target 0 1%positive ["a"%byte; "b"%byte] 2
                                  pipe_breaks_midway = Some (1, m') /\
     ((1 = 1 /\ errors m' = errors pipe_breaks_midway) \/
      (1 = -1 /\
       errors m' = errors pipe_breaks_midway ++
         [socket_send_failure L10N_SEND_SYS_SOCKET_FAILED_ERROR_MESSAGE
                              (errno m') L10N_ERRNO_ERROR_CODE_TYPE]))).
Proof.
  assert (Hsize : 0 <= 2 <= SIZE_MAX) by (unfold SIZE_MAX; lia).
  destruct (sends_return_and_report 0 1%positive (example_target 3)
              ["a"%byte; "b"%byte] 2 pipe_breaks_midway eq_refl eq_refl Hsize)
    as (Htcp & Hudp).
  split; [reflexivity|]. split; [reflexivity|]. split; [exact Hsize|].
  split.
  - eexists. split; [vm_compute; reflexivity|]. apply Htcp.
    vm_compute. reflexivity.
  - eexists. split; [vm_compute; reflexivity|]. apply Hudp.
    vm_compute. reflexivity.
Defined.

(** ** A send that fails part of the way *)

Lemma sendto_tcp_loop_progress flag p tl msg msg_size :
  msg_size <= SIZE_MAX ->
  Z.of_nat (length msg) = msg_size ->
  forall fuel sent m s r m' s',
    targets m !! p = Some tl ->
    fds m !! handle tl = Some s ->
    0 <= sent <= msg_size ->
    sendto_tcp_loop flag fuel p msg msg_size sent 1 m = Some (r, m') ->
    fds m' !! handle tl = Some s' ->
    exists extra,
      delivered s' = delivered s ++ extra /\
      (r = 1 -> Z.of_nat (length extra) = msg_size - sent) /\
      (r <> 1 -> Z.of_nat (length extra) < msg_size - sent).
Proof.
  intros Hmax Hlen fuel.
  induction fuel as [|fuel IH]; intros sent m s r m' s' Ht Hfd Hsent Hrun Hfd'.
  { discriminate. }
  cbn [sendto_tcp_loop] in Hrun.
  destruct (Z.ltb_spec sent msg_size) as [Hlt|Hge].
  - destruct (sendto_tcp_body_spec flag p tl msg msg_size sent m Ht)
      as (c & m1 & rr & Hbody & _ & _ & _ & Hcases).
    rewrite (bind_Some _ _ _ _ _ Hbody) in Hrun.
    destruct Hcases as [(_ & -> & _ & _ & _ & Hfds1)
                       |(_ & sr & _ & Htg1 & _ & Hsock & Hsend)].
    { injection Hrun as _ <-. rewrite Hfds1, lookup_delete_eq in Hfd'.
      discriminate. }
    rewrite (size_t_small (msg_size - sent)) in Hsend by lia.
    destruct (Hsock s Hfd) as (s1 & Hfd1 & _ & _ & Hdel1).
    destruct Hsend as [(Hsr & -> & _)|(Hsr & -> & _ & Hrange & Hpos & _)].
    + injection Hrun as <- <-. rewrite Hfd1 in Hfd'. injection Hfd' as <-.
      rewrite (proj2 (Z.eqb_eq sr (-1)) Hsr) in Hdel1.
      exists []. split; [exact Hdel1|]. cbn. split; intros; lia.
    + rewrite (size_t_small (sent + sr)) in Hrun by lia.
      rewrite (proj2 (Z.eqb_neq sr (-1)) Hsr) in Hdel1.
      specialize (Hpos ltac:(lia)).
      destruct (IH (sent + sr) m1 s1 r m' s') as (extra & Hdel & Hok & Hko);
        [rewrite Htg1; exact Ht | exact Hfd1 | lia | exact Hrun | exact Hfd' |].
      exists (take (Z.to_nat sr) msg ++ extra).
      split; [rewrite Hdel, Hdel1, <- app_assoc; reflexivity|].
      rewrite length_app, length_take. split; intros Hr.
      * specialize (Hok Hr). lia.
      * specialize (Hko Hr). lia.
  - injection Hrun as <- <-. rewrite Hfd in Hfd'. injection Hfd' as <-.
    exists []. split; [rewrite app_nil_r; reflexivity|].
    cbn. split; intros; lia.
Qed.

(** X14. A failure return of [sys_socket_sendto_tcp_target] does not mean
    that nothing went out. When the call returns -1 with the descriptor
    still open, the bytes handed to the kernel before the failing [send]
    stay in the stream; they are fewer than the message has. *)
Theorem sendto_tcp_failure_is_partial
    (flag : Z) (p : target_ptr) (t : network_target) (s s' : socket)
    (msg : list byte) (m m' : machine) :
  targets m !! p = Some t ->
  mutex t = MutexUnlocked ->
  fds m !! handle t = Some s ->
  Z.of_nat (length msg) <= SIZE_MAX ->
  sys_socket_sendto_tcp_target flag p msg (Z.of_nat (length msg)) m
  = Some (-1, m') ->
  fds m' !! handle t = Some s' ->
  exists extra,
    delivered s' = delivered s ++ extra /\
    (length extra < length msg)%nat.
Proof.
  intros Ht Hmu Hfd Hmax Hrun Hfd'.
  unfold sys_socket_sendto_tcp_target in Hrun. cbv zeta in Hrun.
  erewrite bind_Some in Hrun
    by (eapply lock_network_target_eq; eassumption).
  apply bind_inv in Hrun as (r & m1 & Hloop & Hrest).
  apply bind_inv in Hrest as (u & m2 & Hunlock & Hret).
  injection Hret as -> <-.
  rewrite (unlock_network_target_fds _ _ _ _ Hunlock) in Hfd'.
  destruct (sendto_tcp_loop_progress flag p (with_mutex MutexLocked t) msg
              (Z.of_nat (length msg)) Hmax eq_refl _ 0
              (set_targets <[p:=with_mutex MutexLocked t]> m) s (-1) m1 s'
              (lookup_insert_eq _ _ _) Hfd ltac:(lia) Hloop Hfd')
    as (extra & Hdel & _ & Hko).
  exists extra. split; [exact Hdel|].
  specialize (Hko ltac:(lia)). lia.
Qed.

(** The pipe breaks after the first of two bytes: one byte stays sent. *)
Lemma sendto_tcp_failure_is_partial_witness :
  targets pipe_breaks_midway !! 1%positive = Some (example_target 3) /\
  mutex (example_target 3) = MutexUnlocked /\
  fds pipe_breaks_midway !! handle (example_target 3)
  = Some (example_socket [] false [Accept 1; SendFails EPIPE]) /\
  Z.of_nat (length ["a"%byte; "b"%byte]) <= SIZE_MAX /\
  exists m' s',
    sys_socket_sendto_tcp_target 0 1%positive ["a"%byte; "b"%byte]
      (Z.of_nat (length ["a"%byte; "b"%byte])) pipe_breaks_midway
    = Some (-1, m') /\
    fds m' !! handle (example_target 3) = Some s' /\
    delivered s' = ["a"%byte] /\
    exists extra,
      delivered s'
      = delivered (example_socket [] false [Accept 1; SendFails EPIPE])
        ++ extra /\
      (length extra < length ["a"%byte; "b"%byte])%nat.
Proof.
  assert (Hmax : Z.of_nat (length ["a"%byte; "b"%byte]) <= SIZE_MAX)
    by (unfold SIZE_MAX; cbn; lia).
  split; [reflexivity|]. split; [reflexivity|]. split; [reflexivity|].
  split; [exact Hmax|].
  eexists _, _. split; [vm_compute; reflexivity|].
  split; [vm_compute; reflexivity|]. split; [reflexivity|].
  eapply (sendto_tcp_failure_is_partial 0 1%positive (example_target 3)
            (example_socket [] false [Accept 1; SendFails EPIPE]) _
            ["a"%byte; "b"%byte] pipe_breaks_midway);
    [reflexivity | reflexivity | reflexivity | exact Hmax
    | vm_compute; reflexivity | vm_compute; reflexivity].
Defined.
